(** * ctapipe_io_targetio: the R1 calibrator for TARGET data, verified

    A shallow embedding of [ctapipe_io_targetio/calibration.py] and of the
    container declarations of [ctapipe_io_targetio/containers.py] and
    [ctapipe/io/containers.py].

    Python objects that the calibrator shares between calls (numpy arrays)
    live in an explicit store; containers are records whose array-valued
    fields hold references into that store.  The calibrator's methods are
    written in a small state-and-exception monad, statement by statement
    as in the source. *)

From Stdlib Require Import ZArith.
From Stdlib Require Import SpecFloat.
From stdpp Require Import gmap strings list fin_maps.

Open Scope Z_scope.

(** ** numpy arrays *)

Module NumPy.

(** The two element types TARGET data uses: raw samples are [uint16],
    calibrated samples are [float32]. *)
Inductive dtype := uint16 | float32.

Inductive scalar :=
| U16 (n : Z)
| F32 (x : spec_float).

#[global] Instance dtype_eq_dec : EqDecision dtype.
Proof. solve_decision. Defined.

(** An array: element type, shape, and the elements in row-major order. *)
Record ndarray := mk_ndarray {
  nd_dtype : dtype;
  nd_shape : list nat;
  nd_data : list scalar
}.

(** Number of elements of an array of the given shape. *)
Definition size_of (shape : list nat) : nat := foldr Nat.mul 1%nat shape.

(** IEEE binary32: 24 bits of precision, exponents up to 128. *)
Definition f32_prec : Z := 24.
Definition f32_emax : Z := 128.

Definition f32_zero : spec_float := S754_zero false.

(** Conversion of an integer to binary32, round to nearest even. *)
Definition f32_of_Z (n : Z) : spec_float :=
  binary_normalize f32_prec f32_emax n 0 false.

(** The element cast performed by [astype('float32')]. *)
Definition to_float32 (s : scalar) : scalar :=
  match s with
  | U16 n => F32 (f32_of_Z n)
  | F32 x => F32 x
  end.

(** [a.astype('float32')]: a new array of the same shape. *)
Definition astype_float32 (a : ndarray) : ndarray :=
  {| nd_dtype := float32;
     nd_shape := nd_shape a;
     nd_data := to_float32 <$> nd_data a |}.

(** [np.zeros(shape, dtype=np.float32)]. *)
Definition zeros (shape : list nat) : ndarray :=
  {| nd_dtype := float32;
     nd_shape := shape;
     nd_data := replicate (size_of shape) (F32 f32_zero) |}.

(** Number of elements of one entry along the first axis. *)
Definition chan_size (a : ndarray) : nat := size_of (tail (nd_shape a)).

(** [a[0]] is defined when [a] has a first axis of positive length;
    otherwise indexing raises.  What [a[0]] is depends on the number of
    axes, see [is_view0]. *)
Definition has_item0 (a : ndarray) : bool :=
  match nd_shape a with
  | [] => false
  | O :: _ => false
  | S _ :: _ => true
  end.

(** The value of [a[0]]: the entry [0] along the first axis.  For an
    array with one axis it is a single element (shape [[]]). *)
Definition item0 (a : ndarray) : ndarray :=
  {| nd_dtype := nd_dtype a;
     nd_shape := tail (nd_shape a);
     nd_data := take (chan_size a) (nd_data a) |}.

(** Filling the view [a[0]] in place: cell [i] of the view receives
    [F32 (cell i)], everything outside the view keeps its value. *)
Definition fill_item0 (cell : nat → spec_float) (a : ndarray) : ndarray :=
  {| nd_dtype := nd_dtype a;
     nd_shape := nd_shape a;
     nd_data := imap (λ i _, F32 (cell i)) (take (chan_size a) (nd_data a))
                  ++ drop (chan_size a) (nd_data a) |}.

(** For an array with two axes or more [a[0]] is a view: writing into it
    writes into [a].  For an array with one axis [a[0]] is a scalar, a
    copy of the element: nothing written to it reaches [a]. *)
Definition is_view0 (a : ndarray) : bool :=
  match nd_shape a with
  | _ :: _ :: _ => true
  | _ => false
  end.

(** What [a] holds after a routine has filled the object [a[0]] it was
    given. *)
Definition write_item0 (cell : nat → spec_float) (a : ndarray) : ndarray :=
  if is_view0 a then fill_item0 cell a else a.

(** In-place assignment [a[...] = xs], with [xs] the values as they are
    stored: the elements are replaced from the start; the element type,
    the shape and the number of elements stay. *)
Definition overwrite (xs : list scalar) (a : ndarray) : ndarray :=
  {| nd_dtype := nd_dtype a;
     nd_shape := nd_shape a;
     nd_data := take (length (nd_data a))
                  (xs ++ drop (length xs) (nd_data a)) |}.

(** The elements of the entries [1, 2, ...] along the first axis. *)
Definition upper_channels (a : ndarray) : list scalar :=
  drop (chan_size a) (nd_data a).

End NumPy.
Export NumPy.

(** ** The store of arrays *)

(** A reference to an array object. *)
Definition loc := nat.

(** The arrays alive in the interpreter. *)
Abbreviation Heap := (gmap loc ndarray).

(** Allocation returns a reference that is not in use. *)
Definition alloc (a : ndarray) (h : Heap) : loc * Heap :=
  let l := fresh (dom h) in (l, <[l := a]> h).

(** ** Exceptions *)

Inductive exn :=
| ValueError      (* 'Using TargetioR1Calibrator to calibrate a non-targetio event.' *)
| KeyError
| AttributeError
| TypeError
| IndexError
| ImportError
| ExternalError (code : Z)  (* raised inside target_calib *)
| DanglingReference.        (* no Python exception: a reference the store
                               does not hold, which no Python run has *)

#[global] Instance exn_eq_dec : EqDecision exn.
Proof. solve_decision. Defined.

(** How a statement ends: normally with a value, or by raising. *)
Inductive outcome (A : Type) :=
| Return (a : A)
| Raise (e : exn).
Arguments Return {A} a.
Arguments Raise {A} e.

(** ** Containers *)

Module Containers.

(** [ctapipe.core.Map] is a [defaultdict]: reading a missing key stores
    the default under that key and returns it. *)
Definition Map_getitem {V : Type} (dflt : V) (k : Z) (m : gmap Z V)
  : V * gmap Z V :=
  match m !! k with
  | Some v => (v, m)
  | None => (dflt, <[k := dflt]> m)
  end.

(** What reading [m[k]] returns, without the side effect. *)
Definition Map_peek {V : Type} (dflt : V) (k : Z) (m : gmap Z V) : V :=
  default dflt (m !! k).

(** [TargetIOCameraContainer]: [first_cell_ids = Field(None, ...)]. *)
Record TargetIOCameraContainer := mk_tio_camera {
  first_cell_ids : option loc
}.

(** [TargetIOContainer]: [tel = Field(Map(TargetIOCameraContainer), ...)]. *)
Record TargetIOContainer := mk_tio {
  tio_tel : gmap Z TargetIOCameraContainer
}.

(** Modelled from the spec: the per-telescope raw container of the
    ctapipe version the calibrator runs against is not declared in this
    repository; of its fields the calibrator reads [waveform], the raw
    sample array, unset ([None]) by default. *)
Record R0CameraContainer := mk_r0_camera {
  r0_waveform : option loc
}.

(** Modelled from the spec: the raw container, with the list of telescope
    ids that have data and the map from telescope id to raw camera
    container. *)
Record R0Container := mk_r0 {
  tels_with_data : list Z;
  r0_tel : gmap Z R0CameraContainer
}.

(** Modelled from the spec: the per-telescope calibrated container; the
    calibrator writes its [waveform], unset by default. *)
Record R1CameraContainer := mk_r1_camera {
  r1_waveform : option loc
}.

(** Modelled from the spec: the calibrated container, a map from
    telescope id to calibrated camera container. *)
Record R1Container := mk_r1 {
  r1_tel : gmap Z R1CameraContainer
}.

(** The event the calibrator receives: [TargetIODataContainer] adds
    [targetio] to the data container's [meta], [r0] and [r1]. *)
Record Event := mk_event {
  meta : gmap string string;
  r0 : R0Container;
  r1 : R1Container;
  targetio : TargetIOContainer
}.

Definition set_r0_tel (m : gmap Z R0CameraContainer) (e : Event) : Event :=
  {| meta := meta e;
     r0 := {| tels_with_data := tels_with_data (r0 e); r0_tel := m |};
     r1 := r1 e;
     targetio := targetio e |}.

Definition set_r1_tel (m : gmap Z R1CameraContainer) (e : Event) : Event :=
  {| meta := meta e; r0 := r0 e; r1 := {| r1_tel := m |};
     targetio := targetio e |}.

Definition set_tio_tel (m : gmap Z TargetIOCameraContainer) (e : Event)
  : Event :=
  {| meta := meta e; r0 := r0 e; r1 := r1 e;
     targetio := {| tio_tel := m |} |}.

(** What [event.r0.tel[t].waveform] evaluates to. *)
Definition read_r0_waveform (e : Event) (t : Z) : option loc :=
  r0_waveform (Map_peek (mk_r0_camera None) t (r0_tel (r0 e))).

(** What [event.r1.tel[t].waveform] evaluates to. *)
Definition read_r1_waveform (e : Event) (t : Z) : option loc :=
  r1_waveform (Map_peek (mk_r1_camera None) t (r1_tel (r1 e))).

End Containers.
Export Containers.

(** ** The calibrator *)

Section Calibrator.

(** The calibration object of the external [target_calib] library. *)
Context {Dataset : Type}.

(** The [target_calib] module as [__init__] imports it: its [Calibrator]
    constructor takes the pedestal path, the transfer function path and
    the list [[pe_path, ff_path]]; it may raise. *)
Record target_calib := mk_target_calib {
  tc_Calibrator : string → option string → list (option string)
                  → exn + Dataset
}.

(** [Calibrator.ApplyEvent(samples, fci, out)] of [target_calib]: it reads
    the raw samples of one channel, the first cell ids and the output
    array, and either raises or fills the output array in place; a
    result [inr cell] stands for cell [i] of the output receiving
    [cell i]. *)
Variable ApplyEvent :
  Dataset → ndarray → option ndarray → ndarray → exn + (nat → spec_float).

(** Modelled from the spec: [check_r0_exists] is inherited from ctapipe's
    [CameraR1Calibrator], which is not part of this repository; it is the
    precondition helper answering whether raw data exists for the
    telescope. *)
Variable check_r0_exists : Event → Z → bool.

(** What the attribute [self.calibrate] is bound to. *)
Inductive bound_method :=
| placeholder      (* the class's own [calibrate], whose body is [pass] *)
| fake_calibrate_m
| real_calibrate_m.

(** The four configurable traits; [Unicode('', allow_none=True)]. *)
Record Config := mk_config {
  pedestal_path : option string;
  tf_path : option string;
  pe_path : option string;
  ff_path : option string
}.

(** The instance attributes of a [TargetIOR1Calibrator]. *)
Record TargetIOR1Calibrator := mk_calibrator {
  config : Config;
  _r1_wf : option loc;
  tc : target_calib;
  calibrator : option Dataset;
  telid : Z;
  calibrate_attr : bound_method
}.

(** What a method call can read and write: the array store, the
    calibrator instance and the event passed to the call. *)
Record State := mk_state {
  heap : Heap;
  self : TargetIOR1Calibrator;
  event : Event
}.

(** Statements: state passing with exceptions. *)
Definition Py (A : Type) : Type := State → outcome A * State.

#[global] Instance Py_ret : MRet Py := λ A a s, (Return a, s).

#[global] Instance Py_bind : MBind Py := λ A B f m s,
  match m s with
  | (Return a, s') => f a s'
  | (Raise e, s') => (Raise e, s')
  end.

Definition raise {A : Type} (e : exn) : Py A := λ s, (Raise e, s).

Definition get_event : Py Event := λ s, (Return (event s), s).
Definition put_event (e : Event) : Py unit :=
  λ s, (Return (), mk_state (heap s) (self s) e).
Definition get_self : Py TargetIOR1Calibrator := λ s, (Return (self s), s).
Definition put_self (c : TargetIOR1Calibrator) : Py unit :=
  λ s, (Return (), mk_state (heap s) c (event s)).
Definition get_heap : Py Heap := λ s, (Return (heap s), s).
Definition put_heap (h : Heap) : Py unit :=
  λ s, (Return (), mk_state h (self s) (event s)).

(** Following a reference. *)
Definition deref (l : loc) : Py ndarray :=
  h ← get_heap;
  match h !! l with
  | Some a => mret a
  | None => raise DanglingReference
  end.

(** [event.meta[k]] on a [dict]. *)
Definition meta_getitem (k : string) : Py string :=
  e ← get_event;
  match meta e !! k with
  | Some v => mret v
  | None => raise KeyError
  end.

(** [event.r0.tel[t]]. *)
Definition r0_tel_getitem (t : Z) : Py R0CameraContainer :=
  e ← get_event;
  let '(c, m) := Map_getitem (mk_r0_camera None) t (r0_tel (r0 e)) in
  put_event (set_r0_tel m e);; mret c.

(** [event.r1.tel[t]]. *)
Definition r1_tel_getitem (t : Z) : Py R1CameraContainer :=
  e ← get_event;
  let '(c, m) := Map_getitem (mk_r1_camera None) t (r1_tel (r1 e)) in
  put_event (set_r1_tel m e);; mret c.

(** [event.targetio.tel[t]]. *)
Definition targetio_tel_getitem (t : Z) : Py TargetIOCameraContainer :=
  e ← get_event;
  let '(c, m) := Map_getitem (mk_tio_camera None) t (tio_tel (targetio e)) in
  put_event (set_tio_tel m e);; mret c.

(** [event.r1.tel[t].waveform = v]. *)
Definition r1_tel_set_waveform (t : Z) (v : option loc) : Py unit :=
  _ ← r1_tel_getitem t;
  e ← get_event;
  put_event (set_r1_tel (<[t := mk_r1_camera v]> (r1_tel (r1 e))) e).

(** [x.shape]; [None] has no such attribute. *)
Definition shape_of (x : option loc) : Py (list nat) :=
  match x with
  | None => raise AttributeError
  | Some l => a ← deref l; mret (nd_shape a)
  end.

(** [x.astype('float32')], a new array. *)
Definition astype (x : option loc) : Py (option loc) :=
  match x with
  | None => raise AttributeError
  | Some l =>
      a ← deref l;
      h ← get_heap;
      let '(l', h') := alloc (astype_float32 a) h in
      put_heap h';; mret (Some l')
  end.

(** [np.zeros(shape, dtype=np.float32)]. *)
Definition np_zeros (shape : list nat) : Py (option loc) :=
  h ← get_heap;
  let '(l, h') := alloc (zeros shape) h in
  put_heap h';; mret (Some l).

(** [x[0]]: [None] is not subscriptable, an array needs a first axis of
    positive length. *)
Definition getitem0 (x : option loc) : Py ndarray :=
  match x with
  | None => raise TypeError
  | Some l =>
      a ← deref l;
      if has_item0 a then mret (item0 a) else raise IndexError
  end.

(** The value of an optional array argument. *)
Definition value_of (x : option loc) : Py (option ndarray) :=
  match x with
  | None => mret None
  | Some l => a ← deref l; mret (Some a)
  end.

(** [self.calibrator.ApplyEvent(samples[0], fci, self._r1_wf[0])]: the
    attribute lookup, the three arguments from left to right, then the
    call, which fills the object [self._r1_wf[0]] it is given: a view of
    the buffer when the buffer has two axes or more, a scalar copy when it
    has one, and then the buffer stays as it is. *)
Definition call_ApplyEvent (samples fci : option loc) : Py unit :=
  c ← get_self;
  match calibrator c with
  | None => raise AttributeError
  | Some ds =>
      s0 ← getitem0 samples;
      f ← value_of fci;
      out0 ← getitem0 (_r1_wf c);
      match ApplyEvent ds s0 f out0 with
      | inl e => raise e
      | inr cell =>
          match _r1_wf c with
          | None => raise TypeError
          | Some b =>
              buf ← deref b;
              h ← get_heap;
              put_heap (<[b := write_item0 cell buf]> h)
          end
      end
  end.

Definition set__r1_wf (v : option loc) (c : TargetIOR1Calibrator)
  : TargetIOR1Calibrator :=
  mk_calibrator (config c) v (tc c) (calibrator c) (telid c)
    (calibrate_attr c).

(** [fake_calibrate(self, event)]. *)
Definition fake_calibrate : Py unit :=
  origin ← meta_getitem "origin";
  if bool_decide (origin ≠ "targetio") then raise ValueError
  else
    c ← get_self;
    e ← get_event;
    if check_r0_exists e (telid c) then
      r0c ← r0_tel_getitem (telid c);
      let samples := r0_waveform r0c in
      wf ← astype samples;
      r1_tel_set_waveform (telid c) wf
    else mret ().

(** [real_calibrate(self, event)]. *)
Definition real_calibrate : Py unit :=
  origin ← meta_getitem "origin";
  if bool_decide (origin ≠ "targetio") then raise ValueError
  else
    c ← get_self;
    e ← get_event;
    if check_r0_exists e (telid c) then
      r0c ← r0_tel_getitem (telid c);
      let samples := r0_waveform r0c in
      (match _r1_wf c with
       | None =>
           shape ← shape_of samples;
           b ← np_zeros shape;
           put_self (set__r1_wf b c)
       | Some _ => mret ()
       end);;
      tio ← targetio_tel_getitem (telid c);
      let fci := first_cell_ids tio in
      call_ApplyEvent samples fci;;
      c' ← get_self;
      r1_tel_set_waveform (telid c') (_r1_wf c')
    else mret ().

(** [self.calibrate(event)]: whatever the attribute is bound to. *)
Definition calibrate : Py unit :=
  c ← get_self;
  match calibrate_attr c with
  | placeholder => mret ()
  | fake_calibrate_m => fake_calibrate
  | real_calibrate_m => real_calibrate
  end.

(** Truth value of a [Unicode] trait that allows [None]. *)
Definition truthy (p : option string) : bool :=
  match p with
  | None => false
  | Some s => negb (String.eqb s "")
  end.

(** [_load_calib(self)]. *)
Definition _load_calib (c : TargetIOR1Calibrator)
  : exn + TargetIOR1Calibrator :=
  if truthy (pedestal_path (config c)) then
    match tc_Calibrator (tc c) (default ""%string (pedestal_path (config c)))
            (tf_path (config c))
            [pe_path (config c); ff_path (config c)] with
    | inl e => inl e
    | inr ds =>
        inr (mk_calibrator (config c) (_r1_wf c) (tc c) (Some ds) (telid c)
               real_calibrate_m)
    end
  else
    inr (mk_calibrator (config c) (_r1_wf c) (tc c) (calibrator c) (telid c)
           fake_calibrate_m).

(** [__init__]: the import of [target_calib] may fail; otherwise the
    attributes are set and [_load_calib] binds [calibrate]. *)
Definition __init__ (import_target_calib : option target_calib)
    (cfg : Config) : exn + TargetIOR1Calibrator :=
  match import_target_calib with
  | None => inl ImportError
  | Some m =>
      _load_calib
        {| config := cfg; _r1_wf := None; tc := m; calibrator := None;
           telid := 0; calibrate_attr := placeholder |}
  end.

(** One call [self.calibrate(event)] from outside. *)
Definition call_calibrate (h : Heap) (c : TargetIOR1Calibrator) (e : Event)
  : outcome unit * State :=
  calibrate (mk_state h c e).

(** *** The lifetime of a calibrator instance

    What happens to a calibrator and the array store between construction
    and a given call: other calls of [calibrate], assignments to the
    configurable traits, and code outside the calibrator creating arrays
    or assigning to the elements of an existing array in place
    ([a[...] = xs]).  The array written may be any array of the store,
    the calibrator's buffer included: every event calibrated in
    correction behaviour holds a reference to it. *)
Inductive op :=
| op_calibrate (e : Event)
| op_configure (cfg : Config)
| op_new_array (a : ndarray)
| op_store (l : loc) (a : ndarray).

Definition set_config (cfg : Config) (c : TargetIOR1Calibrator)
  : TargetIOR1Calibrator :=
  mk_calibrator cfg (_r1_wf c) (tc c) (calibrator c) (telid c)
    (calibrate_attr c).

Definition step (hc : Heap * TargetIOR1Calibrator) (o : op)
  : Heap * TargetIOR1Calibrator :=
  let '(h, c) := hc in
  match o with
  | op_calibrate e =>
      let s := (call_calibrate h c e).2 in (heap s, self s)
  | op_configure cfg => (h, set_config cfg c)
  | op_new_array a => ((alloc a h).2, c)
  | op_store l a =>
      match h !! l with
      | Some old => (<[l := overwrite (nd_data a) old]> h, c)
      | None => (h, c)
      end
  end.

Definition run_ops (ops : list op) (hc : Heap * TargetIOR1Calibrator)
  : Heap * TargetIOR1Calibrator :=
  foldl step hc ops.

(** No operation of the run assigns to the elements of the array that is
    the calibrator's buffer when the operation takes place. *)
Fixpoint buffer_untouched (ops : list op)
    (hc : Heap * TargetIOR1Calibrator) : Prop :=
  match ops with
  | [] => True
  | o :: ops =>
      match o with
      | op_store l _ => _r1_wf hc.2 ≠ Some l
      | _ => True
      end ∧ buffer_untouched ops (step hc o)
  end.

End Calibrator.

Arguments target_calib Dataset : clear implicits.
Arguments TargetIOR1Calibrator Dataset : clear implicits.
Arguments State Dataset : clear implicits.
Arguments Py Dataset A : clear implicits.

(** ** A concrete [target_calib] and raw data check

    The properties below hold for every calibration object and every raw
    data check; the instances here make them executable on examples. *)

Module Sample.

(** A calibration object that only holds one pedestal value. *)
Definition Dataset : Type := Z.

(** Loading fails on a path of one character and succeeds otherwise,
    with the length of the path as pedestal. *)
Definition tc : target_calib Dataset :=
  {| tc_Calibrator := λ ped _ _,
       if bool_decide (String.length ped = 1%nat) then inl (ExternalError 2)
       else inr (Z.of_nat (String.length ped)) |}.

(** Pedestal subtraction, cell by cell; a channel without samples is
    refused. *)
Definition ApplyEvent (ped : Dataset) (samples : ndarray)
    (fci : option ndarray) (out : ndarray) : exn + (nat → spec_float) :=
  match nd_data samples with
  | [] => inl (ExternalError 1)
  | _ =>
      inr (λ i, match nd_data samples !! i with
                | Some (U16 n) => f32_of_Z (n - ped)
                | Some (F32 x) => x
                | None => f32_zero
                end)
  end.

(** Modelled from the spec: raw data exists for a telescope when the
    waveform of its raw container is set. *)
Definition check_r0_exists (e : Event) (t : Z) : bool :=
  bool_decide (is_Some (read_r0_waveform e t)).

(** A raw array of shape [[n_chan, n_pix, n_samples]]. *)
Definition raw (shape : list nat) (xs : list Z) : ndarray :=
  {| nd_dtype := uint16; nd_shape := shape; nd_data := U16 <$> xs |}.

(** An event of the given origin whose telescope 0 has the raw waveform
    stored at [l]. *)
Definition event_with (origin : string) (w : option loc) : Event :=
  {| meta := {[ "origin"%string := origin ]};
     r0 := {| tels_with_data := [0]; r0_tel := {[ 0 := mk_r0_camera w ]} |};
     r1 := {| r1_tel := ∅ |};
     targetio := {| tio_tel := ∅ |} |}.

Definition no_paths : Config := mk_config None None None None.
Definition ped_only : Config :=
  mk_config (Some "ped.tcal"%string) None None None.

(** The calibrators that [__init__] builds from these options. *)
Definition fake_calibrator : TargetIOR1Calibrator Dataset :=
  mk_calibrator no_paths None tc None 0 fake_calibrate_m.
Definition real_calibrator : TargetIOR1Calibrator Dataset :=
  mk_calibrator ped_only None tc (Some 8) 0 real_calibrate_m.

(** Two raw waveforms of different shapes: two channels of two pixels
    with three samples, and one channel of two pixels with two samples. *)
Definition raw_a : ndarray :=
  raw [2; 2; 3]%nat [11; 12; 13; 14; 15; 16; 21; 22; 23; 24; 25; 26].
Definition raw_b : ndarray := raw [1; 2; 2]%nat [31; 32; 33; 34].
Definition store : Heap := {[ 0%nat := raw_a; 1%nat := raw_b ]}.
Definition event_a : Event := event_with "targetio" (Some 0%nat).
Definition event_b : Event := event_with "targetio" (Some 1%nat).

(** [event_a] then [event_b] through the same calibrator. *)
Definition first_call : outcome unit * State Dataset :=
  call_calibrate ApplyEvent check_r0_exists store real_calibrator event_a.
Definition second_call : outcome unit * State Dataset :=
  call_calibrate ApplyEvent check_r0_exists
    (heap first_call.2) (self first_call.2) event_b.

(** The array [event.r1.tel[t].waveform] refers to. *)
Definition r1_array (s : State Dataset) (t : Z) : option ndarray :=
  l ← read_r1_waveform (event s) t; heap s !! l.

End Sample.

(** ** What a sample is worth *)

Module Exact.

(** The integer a binary32 number is equal to, when it is equal to one. *)
Definition Z_of_f32 (x : spec_float) : option Z :=
  match x with
  | S754_zero _ => Some 0
  | S754_finite s m e =>
      let v := if s then Z.neg m else Z.pos m in
      if 0 <=? e then Some (v * 2 ^ e)
      else if v mod 2 ^ (- e) =? 0 then Some (v / 2 ^ (- e))
      else None
  | _ => None
  end.

(** The integer an array element is equal to. *)
Definition integer_of (s : scalar) : option Z :=
  match s with
  | U16 n => Some n
  | F32 x => Z_of_f32 x
  end.

(** An element as a [uint16] array holds it. *)
Definition is_uint16 (s : scalar) : bool :=
  match s with
  | U16 n => (0 <=? n) && (n <? 65536)
  | F32 _ => false
  end.

End Exact.

(** ** The buffer as an array *)

(** If the calibrator has a buffer, it is a [float32] array of the store
    with as many elements as its shape says. *)
Definition buffer_wf {Dataset : Type} (h : Heap)
    (c : TargetIOR1Calibrator Dataset) : Prop :=
  ∀ b, _r1_wf c = Some b →
       ∃ buf, h !! b = Some buf ∧ nd_dtype buf = float32 ∧
              length (nd_data buf) = size_of (nd_shape buf).

(** ** Events at the edges *)

Module Edge.
Import Sample.

(** An event whose [meta] has no origin tag. *)
Definition untagged : Event :=
  {| meta := ∅; r0 := r0 event_a; r1 := r1 event_a;
     targetio := targetio event_a |}.

(** A raw waveform without any channel, and one whose only channel has no
    samples, which the sample [ApplyEvent] refuses. *)
Definition raw_none : ndarray := raw [0; 2; 3]%nat [].
Definition raw_void : ndarray := raw [1; 0; 0]%nat [].

Definition edge_store : Heap :=
  {[ 0%nat := raw_a; 1%nat := raw_none; 2%nat := raw_void ]}.
Definition event_none : Event := event_with "targetio" (Some 1%nat).
Definition event_void : Event := event_with "targetio" (Some 2%nat).

(** The first call of a calibrator in correction behaviour, on the event
    [ApplyEvent] refuses. *)
Definition failed_call : outcome unit * State Dataset :=
  call_calibrate ApplyEvent check_r0_exists edge_store real_calibrator
    event_void.

(** A call of the calibrator in identity behaviour. *)
Definition identity_call : outcome unit * State Dataset :=
  call_calibrate ApplyEvent check_r0_exists store fake_calibrator event_a.

(** A raw waveform with one axis only, where [raw_flat[0]] is a scalar,
    and the first call of a calibrator in correction behaviour on it. *)
Definition raw_flat : ndarray := raw [3]%nat [41; 42; 43].
Definition flat_store : Heap := {[ 0%nat := raw_flat ]}.
Definition flat_call : outcome unit * State Dataset :=
  call_calibrate ApplyEvent check_r0_exists flat_store real_calibrator
    event_a.

End Edge.

(** * Containers with declared defaults *)

(** Modelled from the spec: the classes [Container], [Field] and [Map] of
    [ctapipe.core] are imported by the two [containers.py] files but their
    code is not part of the sources.  The spec's contract is followed:
    constructing a container gives every declared field a deep copy of its
    declared default, and resetting does the same for an existing instance.
    The field declarations themselves ([Declared]) are those of the
    sources. *)
Module Core.

(** Values [deepcopy] returns as they are. *)
Inductive atom :=
| AInt (n : Z)
| ABool (b : bool)
| AStr (s : string)
| ANone
| AClass (name : string).

#[global] Instance atom_eq_dec : EqDecision atom.
Proof. solve_decision. Defined.

(** A default as the class body writes it: the value of the expression
    given to [Field] / [Item] when the class is defined. *)
Local Unset Elimination Schemes.
Inductive value :=
| VAtom (a : atom)
| VList (xs : list value)
| VMap (factory : option string) (items : list (Z * value))
| VContainer (name : string) (fields : list (string * value)).
Local Set Elimination Schemes.

(** Objects of the running program. *)
Inductive cell :=
| Imm (a : atom)
| Ref (l : nat).

Inductive obj :=
| OList (xs : list cell)
| OMap (factory : option string) (items : list (Z * cell))
| OContainer (name : string) (fields : list (string * cell)).

Abbreviation objects := (list obj).

Definition new (o : obj) (h : objects) : cell * objects :=
  (Ref (length h), h ++ [o]).

Fixpoint copy_each (f : value → objects → cell * objects)
    (xs : list value) (h : objects) : list cell * objects :=
  match xs with
  | [] => ([], h)
  | x :: xs =>
      let '(c, h1) := f x h in
      let '(cs, h2) := copy_each f xs h1 in
      (c :: cs, h2)
  end.

Fixpoint copy_items {K} (f : value → objects → cell * objects)
    (xs : list (K * value)) (h : objects) : list (K * cell) * objects :=
  match xs with
  | [] => ([], h)
  | (k, x) :: xs =>
      let '(c, h1) := f x h in
      let '(cs, h2) := copy_items f xs h1 in
      ((k, c) :: cs, h2)
  end.

Fixpoint deepcopy (v : value) (h : objects) : cell * objects :=
  match v with
  | VAtom a => (Imm a, h)
  | VList xs =>
      let '(cs, h1) := copy_each deepcopy xs h in new (OList cs) h1
  | VMap factory items =>
      let '(cs, h1) := copy_items deepcopy items h in new (OMap factory cs) h1
  | VContainer name fields =>
      let '(cs, h1) := copy_items deepcopy fields h in
      new (OContainer name cs) h1
  end.

(** [Container.__init__] without keyword arguments. *)
Definition construct (name : string) (decl : list (string * value))
    (h : objects) : cell * objects :=
  let '(cs, h1) := copy_items deepcopy decl h in new (OContainer name cs) h1.

Fixpoint assoc {V} (f : string) (xs : list (string * V)) : option V :=
  match xs with
  | [] => None
  | (k, v) :: xs => if bool_decide (k = f) then Some v else assoc f xs
  end.

Definition getattr (h : objects) (c : cell) (f : string) : option cell :=
  match c with
  | Imm _ => None
  | Ref l =>
      match h !! l with
      | Some (OContainer _ fields) => assoc f fields
      | _ => None
      end
  end.

(** [Container.reset]: every declared field is assigned a new copy of its
    default; the instance keeps its identity. *)
Definition reset (decl : list (string * value)) (c : cell) (h : objects)
    : option objects :=
  match c with
  | Imm _ => None
  | Ref l =>
      match h !! l with
      | Some (OContainer name _) =>
          let '(cs, h1) := copy_items deepcopy decl h in
          Some (<[l := OContainer name cs]> h1)
      | _ => None
      end
  end.

Fixpoint all2 {A B} (f : A → B → bool) (xs : list A) (ys : list B) : bool :=
  match xs, ys with
  | [], [] => true
  | x :: xs, y :: ys => f x y && all2 f xs ys
  | _, _ => false
  end.

(** The object graph at [c] has the shape and the contents of [v]. *)
Fixpoint represents (h : objects) (v : value) (c : cell) : bool :=
  match v, c with
  | VAtom a, Imm b => bool_decide (a = b)
  | VList xs, Ref l =>
      match h !! l with
      | Some (OList cs) => all2 (represents h) xs cs
      | _ => false
      end
  | VMap factory items, Ref l =>
      match h !! l with
      | Some (OMap factory' cs) =>
          bool_decide (factory = factory') &&
          all2 (λ '(k, x) '(k', c), bool_decide (k = k') && represents h x c)
            items cs
      | _ => false
      end
  | VContainer name fields, Ref l =>
      match h !! l with
      | Some (OContainer name' cs) =>
          bool_decide (name = name') &&
          all2 (λ '(k, x) '(k', c), bool_decide (k = k') && represents h x c)
            fields cs
      | _ => false
      end
  | _, _ => false
  end.

Definition cells_of (o : obj) : list cell :=
  match o with
  | OList xs => xs
  | OMap _ items => items.*2
  | OContainer _ fields => fields.*2
  end.

(** The objects one can get to from a cell. *)
Inductive reach (h : objects) : cell → nat → Prop :=
| reach_here l : reach h (Ref l) l
| reach_step l o c l' :
    h !! l = Some o → c ∈ cells_of o → reach h c l' → reach h (Ref l) l'.

Definition within (n m : nat) (c : cell) : Prop :=
  match c with
  | Imm _ => True
  | Ref l => (n ≤ l < m)%nat
  end.

(** [h1] is [h] with new objects after it, which refer to new objects
    only. *)
Definition extends (h h1 : objects) : Prop :=
  ∃ k, h1 = h ++ k ∧
       Forall (λ o, Forall (within (length h) (length h1)) (cells_of o)) k.

(** [h2] has the objects of [h1] at the places that are new since [h]. *)
Definition keeps (h h1 h2 : objects) : Prop :=
  ∀ l, (length h ≤ l < length h1)%nat → h2 !! l = h1 !! l.

Definition entry_represents {K} `{EqDecision K} (h : objects)
    : K * value → K * cell → bool :=
  λ '(k, x) '(k', c), bool_decide (k = k') && represents h x c.

(** What one copy does, as the property proved for every default. *)
Definition copy_ok (v : value) : Prop :=
  ∀ h c h1, deepcopy v h = (c, h1) →
    extends h h1 ∧ within (length h) (length h1) c ∧
    ∀ h', keeps h h1 h' → represents h' v c = true.

End Core.

(** The field declarations of the sources. *)
Module Declared.
Import Core.

Definition Map (factory : option string) : value := VMap factory [].

Definition InstrumentContainer : value :=
  VContainer "InstrumentContainer"
    [ ("pixel_pos", Map (Some "ndarray"));
      ("optical_foclen", Map (Some "ndarray"));
      ("mirror_dish_area", Map (Some "float"));
      ("mirror_numtiles", Map (Some "int"));
      ("tel_pos", Map (Some "ndarray"));
      ("num_pixels", Map (Some "int"));
      ("num_samples", Map (Some "int"));
      ("num_channels", Map (Some "int")) ]%string.

Definition CalibratedContainer : value :=
  VContainer "CalibratedContainer"
    [ ("tel", Map (Some "CalibratedCameraContainer")) ]%string.

Definition RawDataContainer : value :=
  VContainer "RawDataContainer"
    [ ("run_id", VAtom (AInt (-1)));
      ("event_id", VAtom (AInt (-1)));
      ("tels_with_data", VList []);
      ("tel", Map (Some "RawCameraContainer")) ]%string.

Definition MCEventContainer : value :=
  VContainer "MCEventContainer"
    [ ("energy", VAtom (AInt 0));
      ("alt", VAtom (AInt 0));
      ("az", VAtom (AInt 0));
      ("core_x", VAtom (AInt 0));
      ("core_y", VAtom (AInt 0));
      ("h_first_int", VAtom (AInt 0));
      ("tel", Map (Some "MCCameraEventContainer")) ]%string.

Definition CentralTriggerContainer : value :=
  VContainer "CentralTriggerContainer"
    [ ("gps_time", VAtom (AClass "Time"));
      ("tels_with_trigger", VList []) ]%string.

Definition ReconstructedContainer : value :=
  VContainer "ReconstructedContainer"
    [ ("shower", Map (Some "ReconstructedShowerContainer"));
      ("energy", Map (Some "ReconstructedEnergyContainer"));
      ("classification", Map (Some "ParticleClassificationContainer")) ]%string.

Definition DataContainer : list (string * value) :=
  [ ("dl0", RawDataContainer);
    ("dl1", CalibratedContainer);
    ("dl2", ReconstructedContainer);
    ("mc", MCEventContainer);
    ("mcheader", VAtom (AClass "MCHeaderContainer"));
    ("trig", CentralTriggerContainer);
    ("count", VAtom (AInt 0));
    ("inst", InstrumentContainer) ]%string.

Definition TargetIOCameraContainer : list (string * value) :=
  [ ("first_cell_ids", VAtom ANone) ]%string.

Definition TargetIOContainer : value :=
  VContainer "TargetIOContainer"
    [ ("tel", Map (Some "TargetIOCameraContainer")) ]%string.

Definition TargetIODataContainer : list (string * value) :=
  DataContainer ++ [ ("targetio", TargetIOContainer) ]%string.

(** Two instances made one after the other in an empty store. *)
Definition first_event : cell * objects :=
  construct "TargetIODataContainer" TargetIODataContainer [].
Definition second_event : cell * objects :=
  construct "TargetIODataContainer" TargetIODataContainer first_event.2.

End Declared.

(** ** Events: reading through a [Map] *)

Definition touch_r0 (t : Z) (e : Event) : Event :=
  set_r0_tel (Map_getitem (mk_r0_camera None) t (r0_tel (r0 e))).2 e.

Definition touch_r1 (t : Z) (e : Event) : Event :=
  set_r1_tel (Map_getitem (mk_r1_camera None) t (r1_tel (r1 e))).2 e.

Definition touch_tio (t : Z) (e : Event) : Event :=
  set_tio_tel (Map_getitem (mk_tio_camera None) t (tio_tel (targetio e))).2 e.

Definition assign_r1 (t : Z) (v : option loc) (e : Event) : Event :=
  set_r1_tel (<[t := mk_r1_camera v]> (r1_tel (r1 e))) e.

Definition read_fci (e : Event) (t : Z) : option loc :=
  first_cell_ids (Map_peek (mk_tio_camera None) t (tio_tel (targetio e))).


Section Properties.
Context {Dataset : Type}.
Variable ApplyEvent :
  Dataset → ndarray → option ndarray → ndarray → exn + (nat → spec_float).
Variable check_r0_exists : Event → Z → bool.


Abbreviation TargetIOR1Calibrator := (TargetIOR1Calibrator Dataset).
Abbreviation State := (State Dataset).

(** The value passed for an optional array argument. *)
Definition arg_value (h : Heap) (x : option loc) : option (option ndarray) :=
  match x with
  | None => Some None
  | Some l => Some <$> h !! l
  end.

(** What the allocation of the buffer on first use can do. *)
Inductive buffer_ready (h : Heap) (c : TargetIOR1Calibrator)
    (samples : option loc)
  : outcome unit → Heap → TargetIOR1Calibrator → Prop :=
| buffer_exists b :
    _r1_wf c = Some b → buffer_ready h c samples (Return ()) h c
| buffer_allocated l W :
    _r1_wf c = None → samples = Some l → h !! l = Some W →
    buffer_ready h c samples (Return ())
      (<[fresh (dom h) := zeros (nd_shape W)]> h)
      (set__r1_wf (Some (fresh (dom h))) c)
| buffer_failed x :
    _r1_wf c = None → buffer_ready h c samples (Raise x) h c.

(** What the call of [ApplyEvent] can do. *)
Inductive applied (h : Heap) (c : TargetIOR1Calibrator)
    (samples fci : option loc) : outcome unit → Heap → Prop :=
| applied_filled ds l W fv b buf cell :
    calibrator c = Some ds →
    samples = Some l → h !! l = Some W → has_item0 W = true →
    arg_value h fci = Some fv →
    _r1_wf c = Some b → h !! b = Some buf → has_item0 buf = true →
    ApplyEvent ds (item0 W) fv (item0 buf) = inr cell →
    applied h c samples fci (Return ()) (<[b := write_item0 cell buf]> h)
| applied_failed x :
    applied h c samples fci (Raise x) h.

(** Every way [real_calibrate] can go. *)
Inductive real_calibrate_cases (s : State) : outcome unit → State → Prop :=
| real_no_origin :
    meta (event s) !! "origin"%string = None →
    real_calibrate_cases s (Raise KeyError) s
| real_wrong_origin o :
    meta (event s) !! "origin"%string = Some o → o ≠ "targetio"%string →
    real_calibrate_cases s (Raise ValueError) s
| real_skipped :
    meta (event s) !! "origin"%string = Some "targetio"%string →
    check_r0_exists (event s) (telid (self s)) = false →
    real_calibrate_cases s (Return ()) s
| real_buffer_failed x :
    meta (event s) !! "origin"%string = Some "targetio"%string →
    check_r0_exists (event s) (telid (self s)) = true →
    buffer_ready (heap s) (self s)
      (read_r0_waveform (event s) (telid (self s))) (Raise x)
      (heap s) (self s) →
    real_calibrate_cases s (Raise x)
      (mk_state (heap s) (self s) (touch_r0 (telid (self s)) (event s)))
| real_apply_failed h1 c1 x :
    meta (event s) !! "origin"%string = Some "targetio"%string →
    check_r0_exists (event s) (telid (self s)) = true →
    buffer_ready (heap s) (self s)
      (read_r0_waveform (event s) (telid (self s))) (Return ()) h1 c1 →
    applied h1 c1 (read_r0_waveform (event s) (telid (self s)))
      (read_fci (event s) (telid (self s))) (Raise x) h1 →
    real_calibrate_cases s (Raise x)
      (mk_state h1 c1
         (touch_tio (telid (self s)) (touch_r0 (telid (self s)) (event s))))
| real_done h1 c1 h2 :
    meta (event s) !! "origin"%string = Some "targetio"%string →
    check_r0_exists (event s) (telid (self s)) = true →
    buffer_ready (heap s) (self s)
      (read_r0_waveform (event s) (telid (self s))) (Return ()) h1 c1 →
    applied h1 c1 (read_r0_waveform (event s) (telid (self s)))
      (read_fci (event s) (telid (self s))) (Return ()) h2 →
    real_calibrate_cases s (Return ())
      (mk_state h2 c1
         (assign_r1 (telid (self s)) (_r1_wf c1)
            (touch_tio (telid (self s))
               (touch_r0 (telid (self s)) (event s))))).

(** Every way [fake_calibrate] can go. *)
Inductive fake_calibrate_cases (s : State) : outcome unit → State → Prop :=
| fake_no_origin :
    meta (event s) !! "origin"%string = None →
    fake_calibrate_cases s (Raise KeyError) s
| fake_wrong_origin o :
    meta (event s) !! "origin"%string = Some o → o ≠ "targetio"%string →
    fake_calibrate_cases s (Raise ValueError) s
| fake_skipped :
    meta (event s) !! "origin"%string = Some "targetio"%string →
    check_r0_exists (event s) (telid (self s)) = false →
    fake_calibrate_cases s (Return ()) s
| fake_failed x :
    meta (event s) !! "origin"%string = Some "targetio"%string →
    check_r0_exists (event s) (telid (self s)) = true →
    match read_r0_waveform (event s) (telid (self s)) with
    | None => x = AttributeError
    | Some l => heap s !! l = None ∧ x = DanglingReference
    end →
    fake_calibrate_cases s (Raise x)
      (mk_state (heap s) (self s) (touch_r0 (telid (self s)) (event s)))
| fake_done l W :
    meta (event s) !! "origin"%string = Some "targetio"%string →
    check_r0_exists (event s) (telid (self s)) = true →
    read_r0_waveform (event s) (telid (self s)) = Some l →
    heap s !! l = Some W →
    fake_calibrate_cases s (Return ())
      (mk_state (<[fresh (dom (heap s)) := astype_float32 W]> (heap s))
         (self s)
         (assign_r1 (telid (self s)) (Some (fresh (dom (heap s))))
            (touch_r0 (telid (self s)) (event s)))).

(** The part of an event that belongs to other telescopes than [t], and
    what reading the raw waveform of any telescope gives. *)
Definition event_frame (t : Z) (e e' : Event) : Prop :=
  meta e' = meta e ∧
  tels_with_data (r0 e') = tels_with_data (r0 e) ∧
  (∀ t', t' ≠ t →
     r0_tel (r0 e') !! t' = r0_tel (r0 e) !! t' ∧
     r1_tel (r1 e') !! t' = r1_tel (r1 e) !! t' ∧
     tio_tel (targetio e') !! t' = tio_tel (targetio e) !! t') ∧
  (∀ t', read_r0_waveform e' t' = read_r0_waveform e t').

(** The invariant of the buffer: if there is one, it is in the store and
    every channel but the first holds zeros only. *)
Definition buffer_inv (h : Heap) (c : TargetIOR1Calibrator) : Prop :=
  ∀ b, _r1_wf c = Some b →
       ∃ buf, h !! b = Some buf ∧
              Forall (λ x, x = F32 f32_zero) (upper_channels buf).

(** ** Proof steps for the monad *)

Ltac py_unfold :=
  unfold call_calibrate, calibrate, fake_calibrate, real_calibrate,
    call_ApplyEvent, r1_tel_set_waveform, r0_tel_getitem, r1_tel_getitem,
    targetio_tel_getitem, meta_getitem, astype, np_zeros, shape_of, getitem0,
    value_of, deref, raise, get_self, put_self, get_event, put_event,
    get_heap, put_heap, alloc, mbind, mret, Py_bind, Py_ret in *.

Ltac py_cases := repeat (case_match; simplify_eq/=; try done).

(** ** Arrays: what filling a view keeps *)

Lemma fill_item0_upper_channels cell a :
  upper_channels (fill_item0 cell a) = upper_channels a.
Proof.
  unfold upper_channels. change (chan_size (fill_item0 cell a)) with (chan_size a).
  cbn.
  set (n := chan_size a). set (d := nd_data a).
  destruct (decide (n ≤ length d)%nat) as [Hle|Hgt].
  - rewrite drop_app_length'; [done|].
    rewrite length_imap, length_take. lia.
  - rewrite (drop_ge d) by lia. rewrite app_nil_r.
    apply drop_ge. rewrite length_imap, length_take. lia.
Qed.

Lemma write_item0_shape cell a : nd_shape (write_item0 cell a) = nd_shape a.
Proof. unfold write_item0. by destruct (is_view0 a). Qed.

Lemma write_item0_dtype cell a : nd_dtype (write_item0 cell a) = nd_dtype a.
Proof. unfold write_item0. by destruct (is_view0 a). Qed.

Lemma write_item0_upper_channels cell a :
  upper_channels (write_item0 cell a) = upper_channels a.
Proof.
  unfold write_item0. destruct (is_view0 a); [|done].
  apply fill_item0_upper_channels.
Qed.

Lemma zeros_upper_channels shape :
  Forall (λ x, x = F32 f32_zero) (upper_channels (zeros shape)).
Proof.
  unfold upper_channels, zeros. cbn.
  rewrite drop_replicate. apply Forall_replicate. done.
Qed.


Lemma Map_getitem_fst {V} (d : V) k m : (Map_getitem d k m).1 = Map_peek d k m.
Proof. unfold Map_getitem, Map_peek. by destruct (m !! k). Qed.

Lemma insert_Map_getitem {V} (d v : V) k m :
  <[k := v]> (Map_getitem d k m).2 = <[k := v]> m.
Proof.
  unfold Map_getitem. destruct (m !! k); [done|]. cbn. apply insert_insert_eq.
Qed.

Lemma assign_touch_r1 t v e : assign_r1 t v (touch_r1 t e) = assign_r1 t v e.
Proof.
  unfold assign_r1, touch_r1, set_r1_tel. cbn. by rewrite insert_Map_getitem.
Qed.


Lemma bind_inv {A B} (m : Py Dataset A) (f : A → Py Dataset B) s o s' :
  (m ≫= f) s = (o, s') →
  (∃ a s1, m s = (Return a, s1) ∧ f a s1 = (o, s')) ∨
  (∃ x, m s = (Raise x, s') ∧ o = Raise x).
Proof.
  unfold mbind, Py_bind. destruct (m s) as [[a|x] s1]; intros H.
  - left. eauto.
  - right. simplify_eq. eauto.
Qed.

(** [py_bind H as a s1]: split a run of [m ≫= f] in [H] into the run of
    [m], named [Hrun], and the rest; when [m] raises, so does the whole. *)
Tactic Notation "py_bind" hyp(H) "as" ident(a) ident(s1) :=
  let x := fresh "x" in
  apply bind_inv in H as [(a & s1 & Hrun & H)|(x & Hrun & ->)].

(** [py_run lem]: the run [Hrun] is given by the equation [lem]. *)
Ltac py_run Hr lem :=
  rewrite lem in Hr; cbn in Hr;
  first [ discriminate Hr
        | injection Hr as <- <- ].

Lemma meta_getitem_run k (s : State) :
  meta_getitem k s =
    (match meta (event s) !! k with
     | Some v => Return v
     | None => Raise KeyError
     end, s).
Proof. py_unfold. by destruct (meta (event s) !! k). Qed.

Lemma r0_tel_getitem_run t (s : State) :
  r0_tel_getitem t s =
    (Return (Map_peek (mk_r0_camera None) t (r0_tel (r0 (event s)))),
     mk_state (heap s) (self s) (touch_r0 t (event s))).
Proof.
  py_unfold. unfold touch_r0. rewrite <- Map_getitem_fst.
  by destruct (Map_getitem _ _ _).
Qed.

Lemma r1_tel_getitem_run t (s : State) :
  r1_tel_getitem t s =
    (Return (Map_peek (mk_r1_camera None) t (r1_tel (r1 (event s)))),
     mk_state (heap s) (self s) (touch_r1 t (event s))).
Proof.
  py_unfold. unfold touch_r1. rewrite <- Map_getitem_fst.
  by destruct (Map_getitem _ _ _).
Qed.

Lemma targetio_tel_getitem_run t (s : State) :
  targetio_tel_getitem t s =
    (Return (Map_peek (mk_tio_camera None) t (tio_tel (targetio (event s)))),
     mk_state (heap s) (self s) (touch_tio t (event s))).
Proof.
  py_unfold. unfold touch_tio. rewrite <- Map_getitem_fst.
  by destruct (Map_getitem _ _ _).
Qed.

Lemma r1_tel_set_waveform_run t v (s : State) :
  r1_tel_set_waveform t v s =
    (Return (), mk_state (heap s) (self s) (assign_r1 t v (event s))).
Proof.
  unfold r1_tel_set_waveform, mbind, Py_bind. rewrite r1_tel_getitem_run.
  unfold get_event, put_event. cbn. by rewrite insert_Map_getitem.
Qed.

Lemma call_ApplyEvent_inv samples fci (s : State) o s' :
  call_ApplyEvent ApplyEvent samples fci s = (o, s') →
  applied (heap s) (self s) samples fci o (heap s') ∧
  self s' = self s ∧ event s' = event s.
Proof.
  destruct s as [h c e]. py_unfold. cbn. intros H.
  py_cases; try (split; [by constructor|done]).
  all: split; [|done]; eapply applied_filled; eauto.
  all: cbn; by simplify_option_eq.
Qed.

Lemma ensure_buffer_inv c samples (s : State) o s' :
  self s = c →
  (match _r1_wf c with
   | None =>
       shape ← shape_of samples;
       b ← np_zeros shape;
       put_self (set__r1_wf b c)
   | Some _ => mret ()
   end) s = (o, s') →
  buffer_ready (heap s) c samples o (heap s') (self s') ∧
  event s' = event s.
Proof.
  destruct s as [h c0 e]. cbn. intros ->. py_unfold. cbn. intros H.
  py_cases; split; try done; try (by econstructor).
Qed.

Lemma get_self_run (s : State) : get_self s = (Return (self s), s).
Proof. done. Qed.

Lemma get_event_run (s : State) : get_event s = (Return (event s), s).
Proof. done. Qed.

Lemma real_calibrate_inv s o s' :
  real_calibrate ApplyEvent check_r0_exists s = (o, s') →
  real_calibrate_cases s o s'.
Proof.
  unfold real_calibrate. destruct s as [h c e]. intros H.
  py_bind H as og s1; rewrite meta_getitem_run in Hrun; cbn in Hrun;
    destruct (meta e !! "origin"%string) as [og'|] eqn:Hm;
    try discriminate Hrun.
  2:{ injection Hrun as <- <-. by constructor. }
  injection Hrun as <- <-.
  case_bool_decide as Hog.
  { unfold raise in H. injection H as <- <-. by econstructor. }
  subst og'.
  py_bind H as c0 s1; py_run Hrun get_self_run.
  py_bind H as e0 s1; py_run Hrun get_event_run.
  cbn in H.
  destruct (check_r0_exists e (telid c)) eqn:Hck.
  2:{ injection H as <- <-. by constructor. }
  py_bind H as r0c s1; py_run Hrun r0_tel_getitem_run.
  fold (read_r0_waveform e (telid c)) in H.
  py_bind H as u s1.
  2:{ apply ensure_buffer_inv in Hrun as [Hb He]; [|done].
      destruct s' as [h' c' e']. cbn in *. subst e'.
      inversion Hb; subst. by apply real_buffer_failed. }
  apply ensure_buffer_inv in Hrun as [Hb He]; [|done].
  destruct s1 as [h1 c1 e1], u. cbn in *. subst e1.
  py_bind H as tio s1; py_run Hrun targetio_tel_getitem_run.
  change (first_cell_ids _) with (read_fci e (telid c)) in H.
  py_bind H as u' s1.
  2:{ apply call_ApplyEvent_inv in Hrun as (Ha & Hs & He').
      destruct s' as [h' c' e']. cbn in *. subst.
      inversion Ha; subst. eapply real_apply_failed; eauto. }
  apply call_ApplyEvent_inv in Hrun as (Ha & Hs & He').
  destruct s1 as [h2 c2 e2], u'. cbn in *. subst.
  py_bind H as c' s1; py_run Hrun get_self_run.
  rewrite r1_tel_set_waveform_run in H. cbn in H. injection H as <- <-.
  assert (telid c1 = telid c) as ->.
  { inversion Hb; subst; done. }
  eapply real_done; eauto.
Qed.

Lemma astype_inv x (s : State) o s' :
  astype x s = (o, s') →
  (∃ l W, x = Some l ∧ heap s !! l = Some W ∧
          o = Return (Some (fresh (dom (heap s)))) ∧
          s' = mk_state (<[fresh (dom (heap s)) := astype_float32 W]> (heap s))
                 (self s) (event s)) ∨
  (∃ e, o = Raise e ∧ s' = s ∧
        match x with
        | None => e = AttributeError
        | Some l => heap s !! l = None ∧ e = DanglingReference
        end).
Proof.
  destruct s as [h c e]. py_unfold. cbn. intros H.
  py_cases; eauto 10.
Qed.

Lemma fake_calibrate_inv s o s' :
  fake_calibrate check_r0_exists s = (o, s') →
  fake_calibrate_cases s o s'.
Proof.
  unfold fake_calibrate. destruct s as [h c e]. intros H.
  py_bind H as og s1; rewrite meta_getitem_run in Hrun; cbn in Hrun;
    destruct (meta e !! "origin"%string) as [og'|] eqn:Hm;
    try discriminate Hrun.
  2:{ injection Hrun as <- <-. by constructor. }
  injection Hrun as <- <-.
  case_bool_decide as Hog.
  { unfold raise in H. injection H as <- <-. by econstructor. }
  subst og'.
  py_bind H as c0 s1; py_run Hrun get_self_run.
  py_bind H as e0 s1; py_run Hrun get_event_run.
  cbn in H.
  destruct (check_r0_exists e (telid c)) eqn:Hck.
  2:{ injection H as <- <-. by constructor. }
  py_bind H as r0c s1; py_run Hrun r0_tel_getitem_run.
  fold (read_r0_waveform e (telid c)) in H.
  py_bind H as wf s1; apply astype_inv in Hrun; cbn in Hrun;
    destruct Hrun as [(l & W & Hl & HW & Ho & Hs)|(x' & Ho & Hs & Hx)];
    try discriminate Ho.
  2:{ injection Ho as <-. subst s'. by apply fake_failed. }
  injection Ho as ->. subst s1.
  rewrite r1_tel_set_waveform_run in H. cbn in H. injection H as <- <-.
  by eapply fake_done.
Qed.

Lemma calibrate_unfold (s : State) :
  calibrate ApplyEvent check_r0_exists s =
    match calibrate_attr (self s) with
    | placeholder => (Return (), s)
    | fake_calibrate_m => fake_calibrate check_r0_exists s
    | real_calibrate_m => real_calibrate ApplyEvent check_r0_exists s
    end.
Proof.
  unfold calibrate, mbind, Py_bind, get_self. cbn.
  by destruct (calibrate_attr (self s)).
Qed.

(** [calibrate_cases H]: every way the run [H] of [calibrate] can go. *)
Ltac calibrate_cases H :=
  rewrite calibrate_unfold in H;
  destruct (calibrate_attr (self _)) eqn:?;
  [ first [ injection H as <- <- | injection H as <- ]
  | apply fake_calibrate_inv in H; destruct H
  | apply real_calibrate_inv in H;
    destruct H as [ | | | ? ? ? Hbuf_ | ? ? ? ? ? Hbuf_ Happ_
                  | ? ? ? ? ? Hbuf_ Happ_ ];
    try (inversion Hbuf_; subst; clear Hbuf_);
    try (inversion Happ_; subst; clear Happ_) ];
  cbn [heap self event] in *.

(** *** What [calibrate] leaves alone *)

(** Of the attributes of the instance only [_r1_wf] is ever assigned. *)
Lemma calibrate_self_frame s o s' :
  calibrate ApplyEvent check_r0_exists s = (o, s') →
  config (self s') = config (self s) ∧ tc (self s') = tc (self s) ∧
  calibrator (self s') = calibrator (self s) ∧
  telid (self s') = telid (self s) ∧
  calibrate_attr (self s') = calibrate_attr (self s).
Proof. intros H. calibrate_cases H; done. Qed.

(** Once allocated, the buffer is never replaced. *)
Lemma calibrate_buffer_stable s o s' b :
  calibrate ApplyEvent check_r0_exists s = (o, s') →
  _r1_wf (self s) = Some b → _r1_wf (self s') = Some b.
Proof. intros H Hb. calibrate_cases H; congruence. Qed.

Lemma lookup_Map_getitem_ne {V} (d : V) t t' m :
  t ≠ t' → (Map_getitem d t m).2 !! t' = m !! t'.
Proof.
  intros Hne. unfold Map_getitem. destruct (m !! t); [done|].
  by apply lookup_insert_ne.
Qed.

Lemma peek_Map_getitem {V} (d : V) t t' m :
  Map_peek d t' (Map_getitem d t m).2 = Map_peek d t' m.
Proof.
  unfold Map_peek, Map_getitem. destruct (m !! t) eqn:Hm; [done|]. cbn.
  destruct (decide (t = t')) as [->|Hne].
  - by rewrite lookup_insert_eq, Hm.
  - by rewrite lookup_insert_ne.
Qed.

Lemma event_frame_refl t e : event_frame t e e.
Proof. by repeat split. Qed.

Lemma event_frame_touch_r0 t e : event_frame t e (touch_r0 t e).
Proof.
  repeat split; cbn; try done.
  - intros. by apply lookup_Map_getitem_ne.
  - intros. unfold read_r0_waveform. cbn. by rewrite peek_Map_getitem.
Qed.

Lemma event_frame_touch_tio t e e0 :
  event_frame t e e0 → event_frame t e (touch_tio t e0).
Proof.
  intros (? & ? & Ht & ?). repeat split; cbn; try done; try apply Ht; try done.
  rewrite lookup_Map_getitem_ne by done. by apply Ht.
Qed.

Lemma event_frame_assign_r1 t v e e0 :
  event_frame t e e0 → event_frame t e (assign_r1 t v e0).
Proof.
  intros (? & ? & Ht & ?). repeat split; cbn; try done; try apply Ht; try done.
  rewrite lookup_insert_ne by done. by apply Ht.
Qed.

Lemma calibrate_event_frame s o s' :
  calibrate ApplyEvent check_r0_exists s = (o, s') →
  event_frame (telid (self s)) (event s) (event s').
Proof.
  intros H. calibrate_cases H;
    eauto using event_frame_refl, event_frame_touch_r0,
      event_frame_touch_tio, event_frame_assign_r1.
Qed.

(** *** The array store *)

Lemma fresh_lookup_ne (h : Heap) l a : h !! l = Some a → l ≠ fresh (dom h).
Proof.
  intros Hl ->. apply (is_fresh (dom h)). apply elem_of_dom. eauto.
Qed.

Lemma fresh_lookup_None (h : Heap) : h !! fresh (dom h) = None.
Proof. apply not_elem_of_dom, is_fresh. Qed.

(** Arrays other than the output buffer keep their contents. *)
Lemma calibrate_heap_frame s o s' l a :
  calibrate ApplyEvent check_r0_exists s = (o, s') →
  heap s !! l = Some a → _r1_wf (self s) ≠ Some l →
  heap s' !! l = Some a.
Proof.
  intros H Hl Hne. pose proof (fresh_lookup_ne _ _ _ Hl) as Hfr.
  calibrate_cases H; try done.
  all: try by rewrite lookup_insert_ne.
  - rewrite lookup_insert_ne by congruence. done.
  - cbn in *. simplify_eq. by rewrite !lookup_insert_ne.
Qed.

(** An allocated buffer keeps its place, shape and element type, and the
    contents of every channel but the first. *)
Lemma calibrate_buffer_kept s o s' b buf :
  calibrate ApplyEvent check_r0_exists s = (o, s') →
  _r1_wf (self s) = Some b → heap s !! b = Some buf →
  ∃ buf', heap s' !! b = Some buf' ∧
          nd_shape buf' = nd_shape buf ∧ nd_dtype buf' = nd_dtype buf ∧
          upper_channels buf' = upper_channels buf.
Proof.
  intros H Hb Hl. pose proof (fresh_lookup_ne _ _ _ Hl) as Hfr.
  calibrate_cases H; try (by eauto); try congruence.
  - exists buf. by rewrite lookup_insert_ne.
  - simplify_eq. rewrite lookup_insert_eq. eexists. split; [done|].
    by rewrite write_item0_shape, write_item0_dtype,
         write_item0_upper_channels.
Qed.

(** A buffer allocated by the call is new, has the shape of the raw
    waveform of the event, holds [float32], and is zero in every channel
    but the first. *)
Lemma calibrate_buffer_new s o s' b :
  calibrate ApplyEvent check_r0_exists s = (o, s') →
  _r1_wf (self s) = None → _r1_wf (self s') = Some b →
  heap s !! b = None ∧
  ∃ l W buf,
    read_r0_waveform (event s) (telid (self s)) = Some l ∧
    heap s !! l = Some W ∧ heap s' !! b = Some buf ∧
    nd_shape buf = nd_shape W ∧ nd_dtype buf = float32 ∧
    Forall (λ x, x = F32 f32_zero) (upper_channels buf).
Proof.
  intros H Hn Hb.
  calibrate_cases H; try congruence; cbn in *; simplify_eq.
  - split; [apply fresh_lookup_None|].
    eexists _, _, _. split; [eassumption|]. split; [eassumption|].
    rewrite lookup_insert_eq.
    repeat split; eauto using zeros_upper_channels.
  - split; [apply fresh_lookup_None|].
    rewrite lookup_insert_eq in *. simplify_eq.
    eexists _, _, _. split; [eassumption|]. split; [eassumption|].
    split; [done|].
    rewrite write_item0_shape, write_item0_dtype,
      write_item0_upper_channels.
    repeat split. apply zeros_upper_channels.
Qed.

(** The store only grows. *)
Lemma calibrate_heap_dom s o s' :
  calibrate ApplyEvent check_r0_exists s = (o, s') →
  dom (heap s) ⊆ dom (heap s').
Proof.
  intros H. calibrate_cases H; try done; rewrite ?dom_insert_L; set_solver.
Qed.

(** *** Construction and lifetime *)

Lemma init_inv imp cfg (c : TargetIOR1Calibrator) :
  __init__ imp cfg = inr c →
  config c = cfg ∧ _r1_wf c = None ∧ telid c = 0 ∧
  calibrate_attr c =
    (if truthy (pedestal_path cfg) then real_calibrate_m
     else fake_calibrate_m) ∧
  (calibrate_attr c = real_calibrate_m → is_Some (calibrator c)).
Proof.
  unfold __init__, _load_calib. destruct imp as [m|]; [|done]. cbn.
  destruct (truthy (pedestal_path cfg)).
  - destruct (tc_Calibrator _ _ _ _); [done|].
    intros [= <-]. cbn. eauto.
  - intros [= <-]. cbn. repeat split; done.
Qed.

(** With no pedestal path, construction always succeeds. *)
Lemma init_fake m cfg :
  truthy (pedestal_path cfg) = false →
  ∃ c : TargetIOR1Calibrator, __init__ (Some m) cfg = inr c.
Proof. intros Hp. unfold __init__, _load_calib. cbn. rewrite Hp. eauto. Qed.

Lemma step_attrs h (c : TargetIOR1Calibrator) o :
  telid (step ApplyEvent check_r0_exists (h, c) o).2 = telid c ∧
  calibrate_attr (step ApplyEvent check_r0_exists (h, c) o).2
    = calibrate_attr c.
Proof.
  destruct o as [e|cfg|a|l a]; cbn; try done.
  - unfold call_calibrate.
    destruct (calibrate _ _ _) as [o s'] eqn:H.
    apply calibrate_self_frame in H. cbn in *. intuition congruence.
  - by destruct (h !! l).
Qed.

Lemma run_ops_attrs ops h (c : TargetIOR1Calibrator) :
  telid (run_ops ApplyEvent check_r0_exists ops (h, c)).2 = telid c ∧
  calibrate_attr (run_ops ApplyEvent check_r0_exists ops (h, c)).2
    = calibrate_attr c.
Proof.
  unfold run_ops. revert h c.
  induction ops as [|o ops IH]; intros h c; [done|]. cbn [foldl].
  destruct (step _ _ (h, c) o) as [h1 c1] eqn:Hst.
  pose proof (step_attrs h c o) as [Ht Ha]. rewrite Hst in Ht, Ha.
  cbn in Ht, Ha. rewrite <- Ht, <- Ha. apply IH.
Qed.

(** *** The claims about errors and dispatch *)

(** C4, origin guard: on an event whose origin tag is not ['targetio'],
    [calibrate] in either behaviour raises the [ValueError] of the origin
    check, and the store, the calibrator and the event, with it the map
    of calibrated telescope containers, are as before the call. *)
Theorem C4_origin_guard h (c : TargetIOR1Calibrator) e o :
  calibrate_attr c ≠ placeholder →
  meta e !! "origin"%string = Some o → o ≠ "targetio"%string →
  call_calibrate ApplyEvent check_r0_exists h c e
    = (Raise ValueError, mk_state h c e) ∧
  r1_tel (r1 (event (call_calibrate ApplyEvent check_r0_exists h c e).2))
    = r1_tel (r1 e).
Proof.
  intros Hb Ho Hne.
  assert (call_calibrate ApplyEvent check_r0_exists h c e
          = (Raise ValueError, mk_state h c e)) as ->; [|done].
  unfold call_calibrate. rewrite calibrate_unfold. cbn.
  destruct (calibrate_attr c); [done| |].
  - unfold fake_calibrate, mbind, Py_bind. rewrite meta_getitem_run. cbn.
    rewrite Ho. by rewrite bool_decide_true.
  - unfold real_calibrate, mbind, Py_bind. rewrite meta_getitem_run. cbn.
    rewrite Ho. by rewrite bool_decide_true.
Qed.

(** C2, as the code has it: when the raw data check fails on an event of
    origin ['targetio'], [calibrate] returns normally, raising nothing;
    the event's calibrated container and every array of the store are as
    before the call. *)
Theorem C2_missing_data_is_skipped h (c : TargetIOR1Calibrator) e :
  meta e !! "origin"%string = Some "targetio"%string →
  check_r0_exists e (telid c) = false →
  (call_calibrate ApplyEvent check_r0_exists h c e).1 = Return () ∧
  r1 (event (call_calibrate ApplyEvent check_r0_exists h c e).2) = r1 e ∧
  heap (call_calibrate ApplyEvent check_r0_exists h c e).2 = h.
Proof.
  intros Ho Hck.
  unfold call_calibrate. rewrite calibrate_unfold. cbn.
  destruct (calibrate_attr c); [done| |].
  - unfold fake_calibrate, mbind, Py_bind. rewrite meta_getitem_run. cbn.
    rewrite Ho. rewrite bool_decide_false by naive_solver. cbn.
    by rewrite Hck.
  - unfold real_calibrate, mbind, Py_bind. rewrite meta_getitem_run. cbn.
    rewrite Ho. rewrite bool_decide_false by naive_solver. cbn.
    by rewrite Hck.
Qed.

(** C5, strategy selection: construction binds [calibrate] to
    [fake_calibrate] when the pedestal path is empty or [None] and to
    [real_calibrate] otherwise, whatever the three other paths are; with
    no pedestal path construction cannot fail; and nothing that happens
    to the instance afterwards, calls of [calibrate] and assignments to
    the path traits included, changes the binding. *)
Theorem C5_strategy_selection m ped tf pe ff ops h :
  (truthy ped = false →
   ∃ c : TargetIOR1Calibrator,
     __init__ (Some m) (mk_config ped tf pe ff) = inr c) ∧
  (∀ c : TargetIOR1Calibrator,
     __init__ (Some m) (mk_config ped tf pe ff) = inr c →
     calibrate_attr c =
       (if truthy ped then real_calibrate_m else fake_calibrate_m) ∧
     calibrate_attr (run_ops ApplyEvent check_r0_exists ops (h, c)).2
       = calibrate_attr c).
Proof.
  split.
  - intros Hp. by apply init_fake.
  - intros c Hc. apply init_inv in Hc as (_ & _ & _ & Ha & _).
    split; [done|]. apply run_ops_attrs.
Qed.

(** C6, only telescope 0: the telescope id is 0 after construction and
    stays 0 whatever happens to the instance; a call of [calibrate], in
    either behaviour and however it ends, leaves the id at 0 and leaves
    the entries of every other telescope in the raw, calibrated and
    TARGET maps of the event as they were, whether or not that telescope
    is listed in [tels_with_data]. *)
Theorem C6_only_telescope_0 m cfg (c0 : TargetIOR1Calibrator) ops h0 e :
  __init__ (Some m) cfg = inr c0 →
  telid c0 = 0 ∧
  telid (run_ops ApplyEvent check_r0_exists ops (h0, c0)).2 = 0 ∧
  ∀ h c o s',
    run_ops ApplyEvent check_r0_exists ops (h0, c0) = (h, c) →
    call_calibrate ApplyEvent check_r0_exists h c e = (o, s') →
    telid (self s') = 0 ∧
    ∀ t, t ≠ 0 →
      r1_tel (r1 (event s')) !! t = r1_tel (r1 e) !! t ∧
      r0_tel (r0 (event s')) !! t = r0_tel (r0 e) !! t ∧
      tio_tel (targetio (event s')) !! t = tio_tel (targetio e) !! t.
Proof.
  intros Hc. apply init_inv in Hc as (_ & _ & Ht & _).
  pose proof (run_ops_attrs ops h0 c0) as [Ht' _]. rewrite Ht in Ht'.
  split; [done|]. split; [done|].
  intros h c o s' Hrun Hcal. rewrite Hrun in Ht'. cbn in Ht'.
  unfold call_calibrate in Hcal.
  pose proof (calibrate_self_frame _ _ _ Hcal) as (_ & _ & _ & Hid & _).
  pose proof (calibrate_event_frame _ _ _ Hcal) as (_ & _ & Hfr & _).
  cbn in *. rewrite Ht' in *. split; [done|].
  intros t Hne. destruct (Hfr t Hne) as (? & ? & ?). done.
Qed.

(** *** The claims about what a call writes *)

Lemma read_r1_assign t v e : read_r1_waveform (assign_r1 t v e) t = v.
Proof.
  unfold read_r1_waveform, assign_r1, Map_peek. cbn.
  by rewrite lookup_insert_eq.
Qed.

(** A call of [real_calibrate] that passes the raw data check and returns
    has stored the buffer itself in the calibrated container. *)
Lemma real_returned s s' :
  calibrate_attr (self s) = real_calibrate_m →
  check_r0_exists (event s) (telid (self s)) = true →
  calibrate ApplyEvent check_r0_exists s = (Return (), s') →
  ∃ b buf, _r1_wf (self s') = Some b ∧
           read_r1_waveform (event s') (telid (self s)) = Some b ∧
           heap s' !! b = Some buf.
Proof.
  intros Ha Hck H. remember (Return ()) as o eqn:Ho in H.
  calibrate_cases H; try congruence.
  - eexists _, _. rewrite read_r1_assign, lookup_insert_eq. eauto.
  - cbn in *. simplify_eq.
    eexists _, _. rewrite read_r1_assign, lookup_insert_eq. eauto.
Qed.

(** C1, identity behaviour: a calibrator constructed with no pedestal
    path, whatever happened to it since, calibrates an event of origin
    ['targetio'] that passes the raw data check and holds a raw waveform
    [W] for telescope 0 by returning normally with
    [event.r1.tel[0].waveform] a new array equal to [W] cast to
    [float32], element by element and of the same shape. *)
Theorem C1_identity_behavior m cfg (c0 c : TargetIOR1Calibrator)
    ops h0 h e l W :
  __init__ (Some m) cfg = inr c0 →
  truthy (pedestal_path cfg) = false →
  run_ops ApplyEvent check_r0_exists ops (h0, c0) = (h, c) →
  meta e !! "origin"%string = Some "targetio"%string →
  check_r0_exists e 0 = true →
  read_r0_waveform e 0 = Some l → h !! l = Some W →
  ∃ s' l',
    call_calibrate ApplyEvent check_r0_exists h c e = (Return (), s') ∧
    read_r1_waveform (event s') 0 = Some l' ∧
    heap s' !! l' = Some (astype_float32 W) ∧
    nd_data (astype_float32 W) = to_float32 <$> nd_data W ∧
    nd_shape (astype_float32 W) = nd_shape W.
Proof.
  intros Hc Hp Hrun Ho Hck Hl HW.
  apply init_inv in Hc as (_ & _ & Ht & Ha & _). rewrite Hp in Ha.
  pose proof (run_ops_attrs ops h0 c0) as [Ht' Ha']. rewrite Hrun in Ht', Ha'.
  cbn in Ht', Ha'. rewrite Ht in Ht'. rewrite Ha in Ha'.
  unfold call_calibrate.
  destruct (calibrate ApplyEvent check_r0_exists (mk_state h c e))
    as [o s'] eqn:H.
  rewrite calibrate_unfold in H. cbn in H. rewrite Ha' in H.
  apply fake_calibrate_inv in H. cbn in H.
  destruct H as [Hn|o' Ho' Hne|Ho' Hck'|x Ho' Hck' Hx|l1 W1 Ho' Hck' Hl1 HW1];
    cbn in *; rewrite ?Ht' in *; try congruence.
  - rewrite Hl in Hx. destruct Hx as [Hx _]. congruence.
  - simplify_eq. eexists _, _. split; [done|]. cbn [heap event].
    rewrite read_r1_assign. split; [done|]. by rewrite lookup_insert_eq.
Qed.

(** C3, as the code has it: the buffer is allocated once, by the first
    call that gets that far, with the shape of that event's raw waveform,
    and is never reallocated.  When a calibrator in correction behaviour
    without a buffer calibrates a first event and then a second one,
    both calls returning, the buffer of the first call is still the
    buffer after the second, it has the shape of the first raw waveform
    whatever the shape of the second is, and it is what the second
    event's calibrated container holds. *)
Theorem C3_buffer_allocated_once h (c : TargetIOR1Calibrator)
    e1 e2 s1 s2 l1 W1 :
  calibrate_attr c = real_calibrate_m → _r1_wf c = None →
  check_r0_exists e1 (telid c) = true →
  read_r0_waveform e1 (telid c) = Some l1 → h !! l1 = Some W1 →
  call_calibrate ApplyEvent check_r0_exists h c e1 = (Return (), s1) →
  check_r0_exists e2 (telid c) = true →
  call_calibrate ApplyEvent check_r0_exists (heap s1) (self s1) e2
    = (Return (), s2) →
  ∃ b buf1 buf2,
    h !! b = None ∧
    _r1_wf (self s1) = Some b ∧ heap s1 !! b = Some buf1 ∧
    nd_shape buf1 = nd_shape W1 ∧
    _r1_wf (self s2) = Some b ∧ heap s2 !! b = Some buf2 ∧
    nd_shape buf2 = nd_shape W1 ∧
    read_r1_waveform (event s2) (telid c) = Some b.
Proof.
  unfold call_calibrate. intros Ha Hn Hck1 Hl1 HW1 H1 Hck2 H2.
  pose proof (calibrate_self_frame _ _ _ H1) as (_ & _ & _ & Ht1 & Ha1).
  cbn in Ht1, Ha1.
  destruct (real_returned (mk_state h c e1) s1 Ha Hck1 H1)
    as (b & buf1 & Hb1 & _ & Hbuf1).
  destruct (calibrate_buffer_new (mk_state h c e1) _ _ b H1 Hn Hb1)
    as (Hfresh & l & W & buf & Hl & HW & Hbuf & Hsh & _).
  cbn in *.
  rewrite Hl1 in Hl. injection Hl as <-.
  rewrite HW1 in HW. injection HW as <-.
  rewrite Hbuf1 in Hbuf. injection Hbuf as <-.
  rename buf1 into buf, Hbuf1 into Hbuf.
  pose proof (calibrate_buffer_stable _ _ _ b H2 Hb1) as Hb2.
  destruct (calibrate_buffer_kept _ _ _ b buf H2 Hb1 Hbuf)
    as (buf2 & Hbuf2 & Hsh2 & _).
  destruct (real_returned (mk_state (heap s1) (self s1) e2) s2)
    as (b' & ? & Hb' & Hr & _); cbn; try congruence.
  cbn in *. rewrite Ht1 in Hr.
  exists b, buf, buf2. repeat split; try done; congruence.
Qed.

(** C7, the output buffer is shared between events: in correction
    behaviour the calibrated container of an event holds the calibrator's
    buffer itself.  When two events are calibrated one after the other,
    both calls passing the raw data check and returning, the calibrated
    containers of both events hold the same array, the buffer, and after
    the second call that array, reached from the first event as well,
    is what the second call left in the buffer: when the buffer has two
    axes or more, the buffer filled in channel 0 with what [ApplyEvent]
    computed from the second event's raw samples; when it has one axis
    only, where [ApplyEvent] is given a scalar copy, the buffer as it
    was. *)
Theorem C7_buffer_aliasing h (c : TargetIOR1Calibrator) e1 e2 s1 s2 :
  calibrate_attr c = real_calibrate_m →
  check_r0_exists e1 (telid c) = true →
  call_calibrate ApplyEvent check_r0_exists h c e1 = (Return (), s1) →
  check_r0_exists e2 (telid c) = true →
  call_calibrate ApplyEvent check_r0_exists (heap s1) (self s1) e2
    = (Return (), s2) →
  ∃ b buf1 ds l2 W2 fv cell,
    _r1_wf (self s1) = Some b ∧ _r1_wf (self s2) = Some b ∧
    read_r1_waveform (event s1) (telid c) = Some b ∧
    read_r1_waveform (event s2) (telid c) = Some b ∧
    heap s1 !! b = Some buf1 ∧
    calibrator c = Some ds ∧
    read_r0_waveform e2 (telid c) = Some l2 ∧ heap s1 !! l2 = Some W2 ∧
    arg_value (heap s1) (read_fci e2 (telid c)) = Some fv ∧
    ApplyEvent ds (item0 W2) fv (item0 buf1) = inr cell ∧
    heap s2 !! b = Some (write_item0 cell buf1).
Proof.
  unfold call_calibrate. intros Ha Hck1 H1 Hck2 H2.
  pose proof (calibrate_self_frame _ _ _ H1) as (_ & _ & Hds & Ht1 & Ha1).
  cbn in Hds, Ht1, Ha1.
  destruct (real_returned (mk_state h c e1) s1 Ha Hck1 H1)
    as (b & buf1 & Hb1 & Hr1 & Hbuf1).
  cbn in Hr1.
  rewrite calibrate_unfold in H2. cbn in H2. rewrite Ha1, Ha in H2.
  apply real_calibrate_inv in H2. cbn in H2.
  remember (Return ()) as o eqn:Ho in H2.
  destruct H2 as [ | | Hor Hsk | x ? ? Hbuf | h1 c1 x ? ? Hbuf Happ
                 | h1 c1 h2 Hor Hck Hbuf Happ ];
    cbn in *; rewrite ?Ht1 in *; try congruence.
  inversion Hbuf as [b' Hb' | l W Hn | ]; subst; [|congruence].
  inversion Happ as [ds l2 W2 fv b2 buf2 cell Hcal Hl2 HW2 _ Hfv Hb2 Hbuf2
                       _ Happly | ]; subst.
  rewrite Hb1 in Hb2. injection Hb2 as <-.
  rewrite Hbuf1 in Hbuf2. injection Hbuf2 as <-.
  exists b, buf1, ds, l2, W2, fv, cell.
  rewrite read_r1_assign, Hb1, lookup_insert_eq.
  repeat split; try done; congruence.
Qed.

Lemma calibrate_buffer_inv s o s' :
  calibrate ApplyEvent check_r0_exists s = (o, s') →
  buffer_inv (heap s) (self s) → buffer_inv (heap s') (self s').
Proof.
  intros H Hinv b Hb. destruct (_r1_wf (self s)) as [b0|] eqn:Hb0.
  - pose proof (calibrate_buffer_stable _ _ _ _ H Hb0) as Hb1.
    rewrite Hb in Hb1. injection Hb1 as ->.
    destruct (Hinv b0 Hb0) as (buf & Hbuf & Hz).
    destruct (calibrate_buffer_kept _ _ _ _ _ H Hb0 Hbuf)
      as (buf' & Hbuf' & _ & _ & Hup).
    exists buf'. by rewrite Hup.
  - destruct (calibrate_buffer_new _ _ _ _ H Hb0 Hb)
      as (_ & _ & _ & buf & _ & _ & Hbuf & _ & _ & Hz).
    eauto.
Qed.

Lemma step_buffer_inv h (c : TargetIOR1Calibrator) o :
  buffer_inv h c →
  match o with
  | op_store l _ => _r1_wf c ≠ Some l
  | _ => True
  end →
  buffer_inv (step ApplyEvent check_r0_exists (h, c) o).1
             (step ApplyEvent check_r0_exists (h, c) o).2.
Proof.
  intros Hinv Ho. destruct o as [e|cfg|a|l a]; cbn.
  - unfold call_calibrate.
    destruct (calibrate _ _ _) as [o s'] eqn:H. cbn.
    by apply (calibrate_buffer_inv _ _ _ H).
  - done.
  - intros b Hb. destruct (Hinv b Hb) as (buf & Hbuf & Hz).
    exists buf. split; [|done].
    rewrite lookup_insert_ne; [done|].
    intros Heq. by apply (fresh_lookup_ne _ _ _ Hbuf).
  - destruct (h !! l); [|done]. cbn.
    intros b Hb. destruct (Hinv b Hb) as (buf & Hbuf & Hz).
    exists buf. split; [|done].
    rewrite lookup_insert_ne; [done|]. congruence.
Qed.

Lemma run_ops_buffer_inv ops h (c : TargetIOR1Calibrator) :
  buffer_inv h c →
  buffer_untouched ApplyEvent check_r0_exists ops (h, c) →
  buffer_inv (run_ops ApplyEvent check_r0_exists ops (h, c)).1
             (run_ops ApplyEvent check_r0_exists ops (h, c)).2.
Proof.
  unfold run_ops. revert h c.
  induction ops as [|o ops IH]; intros h c Hinv Hun; [done|]. cbn [foldl].
  destruct Hun as [Ho Hun].
  pose proof (step_buffer_inv h c o Hinv Ho) as Hst.
  destruct (step _ _ (h, c) o) as [h1 c1]. by apply IH.
Qed.

(** C8, correction of channel 0 only: take a calibrator constructed in
    correction behaviour and any run of operations since in which nothing
    but the calibrator assigned to the elements of its buffer.  A call
    that passes the raw data check and returns has given [ApplyEvent]
    channel 0 of the raw waveform, the first cell ids and channel 0 of
    the buffer as it was (zeros, if the call allocated it), nothing else.
    The calibrated waveform is the buffer after that call: with channel 0
    filled by [ApplyEvent] when the buffer has two axes or more, as it
    was when it has one; and every element of its channels 1 and above is
    the zero the buffer was allocated with. *)
Theorem C8_channel_0_only m cfg (c0 c : TargetIOR1Calibrator)
    ops h0 h e s' :
  __init__ (Some m) cfg = inr c0 →
  truthy (pedestal_path cfg) = true →
  buffer_untouched ApplyEvent check_r0_exists ops (h0, c0) →
  run_ops ApplyEvent check_r0_exists ops (h0, c0) = (h, c) →
  check_r0_exists e 0 = true →
  call_calibrate ApplyEvent check_r0_exists h c e = (Return (), s') →
  ∃ b buf ds l W fv out cell,
    read_r1_waveform (event s') 0 = Some b ∧
    heap s' !! b = Some buf ∧
    read_r0_waveform e 0 = Some l ∧ h !! l = Some W ∧
    calibrator c = Some ds ∧
    match _r1_wf c with
    | Some b0 => b0 = b ∧ h !! b = Some out
    | None => h !! b = None ∧ out = zeros (nd_shape W)
    end ∧
    arg_value (match _r1_wf c with Some _ => h | None => <[b := out]> h end)
      (read_fci e 0) = Some fv ∧
    ApplyEvent ds (item0 W) fv (item0 out) = inr cell ∧
    buf = write_item0 cell out ∧
    Forall (λ x, x = F32 f32_zero) (upper_channels buf).
Proof.
  intros Hc Hp Hun Hrun Hck H.
  apply init_inv in Hc as (_ & Hn & Ht & Ha & _). rewrite Hp in Ha.
  pose proof (run_ops_attrs ops h0 c0) as [Ht' Ha']. rewrite Hrun in Ht', Ha'.
  cbn in Ht', Ha'. rewrite Ht in Ht'. rewrite Ha in Ha'.
  assert (buffer_inv h c) as Hinv.
  { pose proof (run_ops_buffer_inv ops h0 c0) as Hi. rewrite Hrun in Hi.
    apply Hi; [|done]. intros b Hb. congruence. }
  unfold call_calibrate in H.
  pose proof (calibrate_buffer_inv _ _ _ H Hinv) as Hinv'.
  rewrite calibrate_unfold in H. cbn in H. rewrite Ha' in H.
  apply real_calibrate_inv in H. cbn in H.
  remember (Return ()) as o eqn:Ho in H.
  destruct H as [ | | Hor Hsk | x ? ? Hbuf | h1 c1 x ? ? Hbuf Happ
                | h1 c1 h2 Hor Hck' Hbuf Happ ];
    cbn in *; rewrite ?Ht' in *; try congruence.
  inversion Happ as [ds l W fv b buf0 cell Hcal Hl HW _ Hfv Hb Hbuf0
                       _ Happly | ]; subst.
  destruct (Hinv' b Hb) as (buf & Hbuf' & Hz).
  rewrite lookup_insert_eq in Hbuf'. injection Hbuf' as <-.
  exists b, (write_item0 cell buf0), ds, l, W, fv, buf0, cell.
  rewrite read_r1_assign, lookup_insert_eq.
  inversion Hbuf as [b' Hb' | l' W' Hn' Hl' HW'' | ]; subst.
  - rewrite Hb. repeat split; done.
  - cbn in Hb, Hcal. injection Hb as <-. rewrite Hn'.
    rewrite lookup_insert_eq in Hbuf0. injection Hbuf0 as <-.
    rewrite Hl in Hl'. injection Hl' as <-.
    rewrite lookup_insert_ne in HW by (by apply fresh_lookup_ne in HW'').
    rewrite HW in HW''. injection HW'' as <-.
    repeat split; try done. apply fresh_lookup_None.
Qed.

(** C9, the raw container is not written: however a call of [calibrate]
    ends, the list of telescopes with data is as before, reading
    [event.r0.tel[t].waveform] gives the same array object as before for
    every [t], and the raw waveform of the calibrated telescope has the
    same elements as before, provided it is not the array the calibrator
    uses as its output buffer. *)
Theorem C9_raw_container_unchanged h (c : TargetIOR1Calibrator)
    e o s' l W :
  call_calibrate ApplyEvent check_r0_exists h c e = (o, s') →
  read_r0_waveform e (telid c) = Some l → h !! l = Some W →
  _r1_wf c ≠ Some l →
  tels_with_data (r0 (event s')) = tels_with_data (r0 e) ∧
  (∀ t, read_r0_waveform (event s') t = read_r0_waveform e t) ∧
  read_r0_waveform (event s') (telid c) = Some l ∧
  heap s' !! l = Some W.
Proof.
  unfold call_calibrate. intros H Hl HW Hne.
  pose proof (calibrate_event_frame _ _ _ H) as (_ & Htels & _ & Hread).
  pose proof (calibrate_heap_frame _ _ _ l W H HW Hne) as Hheap.
  cbn in *. repeat split; try done. by rewrite Hread.
Qed.

(** *** Errors and what they leave behind *)

Lemma ensure_buffer_alloc (c : TargetIOR1Calibrator) l W (s : State) :
  _r1_wf c = None → heap s !! l = Some W →
  (match _r1_wf c with
   | None =>
       shape ← shape_of (Some l);
       b ← np_zeros shape;
       put_self (set__r1_wf b c)
   | Some _ => mret ()
   end) s
  = (Return (),
     mk_state (<[fresh (dom (heap s)) := zeros (nd_shape W)]> (heap s))
       (set__r1_wf (Some (fresh (dom (heap s)))) c) (event s)).
Proof.
  intros Hn HW. rewrite Hn. destruct s as [h c0 e]. py_unfold. cbn in *.
  by rewrite HW.
Qed.

Lemma call_ApplyEvent_raises samples fci (s : State) x s' :
  call_ApplyEvent ApplyEvent samples fci s = (Raise x, s') → s' = s.
Proof.
  intros H. apply call_ApplyEvent_inv in H as (Ha & Hs & He).
  destruct s as [h c e], s' as [h' c' e']. cbn in *. subst.
  by inversion Ha; subst.
Qed.

Lemma call_ApplyEvent_no_item0 ds l W fci (s : State) :
  calibrator (self s) = Some ds → heap s !! l = Some W →
  has_item0 W = false →
  call_ApplyEvent ApplyEvent (Some l) fci s = (Raise IndexError, s).
Proof.
  intros Hc HW H0. destruct s as [h c e]. py_unfold. cbn in *.
  rewrite Hc. cbn. rewrite HW. cbn. by rewrite H0.
Qed.

(** X1, missing origin tag: when the event's [meta] has no key
    ['origin'], [calibrate] raises [KeyError] in both behaviours, before
    anything is read or written. *)
Theorem X1_missing_origin_key h (c : TargetIOR1Calibrator) e :
  calibrate_attr c ≠ placeholder →
  meta e !! "origin"%string = None →
  call_calibrate ApplyEvent check_r0_exists h c e
    = (Raise KeyError, mk_state h c e).
Proof.
  intros Hb Ho. unfold call_calibrate. rewrite calibrate_unfold. cbn.
  destruct (calibrate_attr c); [done| |].
  - unfold fake_calibrate, mbind, Py_bind. rewrite meta_getitem_run. cbn.
    by rewrite Ho.
  - unfold real_calibrate, mbind, Py_bind. rewrite meta_getitem_run. cbn.
    by rewrite Ho.
Qed.

(** X2, a call that raises writes no result: whatever exception
    [calibrate] ends with, the event's calibrated container is as it was
    before the call, and every array that was in the store is still there
    with the same contents. *)
Theorem X2_exception_writes_nothing h (c : TargetIOR1Calibrator) e x s' :
  call_calibrate ApplyEvent check_r0_exists h c e = (Raise x, s') →
  r1 (event s') = r1 e ∧
  ∀ l a, h !! l = Some a → heap s' !! l = Some a.
Proof.
  unfold call_calibrate. intros H.
  remember (Raise x) as o eqn:Ho in H.
  calibrate_cases H; try discriminate Ho; try done.
  split; [done|]. intros l0 a Hl.
  rewrite lookup_insert_ne; [done|]. intros <-.
  by rewrite fresh_lookup_None in Hl.
Qed.

(** X3, the buffer outlives a failed first call: when a calibrator in
    correction behaviour has no buffer yet and the call for an event with
    raw data raises, the buffer has been allocated all the same, as zeros
    of the shape of that event's raw waveform, and nothing else in the
    store changed. *)
Theorem X3_failed_call_allocates_buffer h (c : TargetIOR1Calibrator)
    e x s' l W :
  calibrate_attr c = real_calibrate_m → _r1_wf c = None →
  meta e !! "origin"%string = Some "targetio"%string →
  check_r0_exists e (telid c) = true →
  read_r0_waveform e (telid c) = Some l → h !! l = Some W →
  call_calibrate ApplyEvent check_r0_exists h c e = (Raise x, s') →
  _r1_wf (self s') = Some (fresh (dom h)) ∧
  heap s' = <[fresh (dom h) := zeros (nd_shape W)]> h ∧
  h !! fresh (dom h) = None.
Proof.
  intros Hattr Hn Ho Hck Hr HW H.
  unfold call_calibrate in H. rewrite calibrate_unfold in H. cbn in H.
  rewrite Hattr in H. unfold real_calibrate in H.
  remember (Raise x) as o eqn:Hx in H.
  py_bind H as og s1; rewrite meta_getitem_run in Hrun; cbn in Hrun;
    rewrite Ho in Hrun; [|discriminate Hrun].
  injection Hrun as <- <-.
  rewrite bool_decide_false in H by naive_solver.
  py_bind H as c0 s1; py_run Hrun get_self_run.
  py_bind H as e0 s1; py_run Hrun get_event_run.
  cbn in H. rewrite Hck in H.
  py_bind H as r0c s1; py_run Hrun r0_tel_getitem_run.
  fold (read_r0_waveform e (telid c)) in H. rewrite Hr in H.
  py_bind H as u s1;
    rewrite (ensure_buffer_alloc c l W) in Hrun by done;
    [|discriminate Hrun].
  injection Hrun as <- <-.
  py_bind H as tio s1; py_run Hrun targetio_tel_getitem_run.
  py_bind H as u' s1.
  - clear Hrun. py_bind H as c' s2; py_run Hrun get_self_run.
    rewrite r1_tel_set_waveform_run in H. injection H as <- <-.
    discriminate Hx.
  - apply call_ApplyEvent_raises in Hrun as ->. cbn.
    split; [done|]. split; [done|]. apply fresh_lookup_None.
Qed.

(** X4, a raw waveform without a first entry: in correction behaviour,
    when the raw array of the event has no element [0] along its first
    axis (no axis at all, or one of length 0), the call raises
    [IndexError] and the calibrated container is not written. *)
Theorem X4_empty_first_axis h (c : TargetIOR1Calibrator) e l W :
  calibrate_attr c = real_calibrate_m → is_Some (calibrator c) →
  meta e !! "origin"%string = Some "targetio"%string →
  check_r0_exists e (telid c) = true →
  read_r0_waveform e (telid c) = Some l → h !! l = Some W →
  has_item0 W = false →
  ∃ s', call_calibrate ApplyEvent check_r0_exists h c e
          = (Raise IndexError, s') ∧
        r1 (event s') = r1 e.
Proof.
  intros Hattr [ds Hds] Ho Hck Hr HW H0.
  destruct (call_calibrate ApplyEvent check_r0_exists h c e) as [o s'] eqn:H.
  assert (o = Raise IndexError ∧ r1 (event s') = r1 e) as [-> ?];
    [|by eexists].
  unfold call_calibrate in H. rewrite calibrate_unfold in H. cbn in H.
  rewrite Hattr in H. unfold real_calibrate in H.
  py_bind H as og s1; rewrite meta_getitem_run in Hrun; cbn in Hrun;
    rewrite Ho in Hrun; [|discriminate Hrun].
  injection Hrun as <- <-.
  rewrite bool_decide_false in H by naive_solver.
  py_bind H as c0 s1; py_run Hrun get_self_run.
  py_bind H as e0 s1; py_run Hrun get_event_run.
  cbn in H. rewrite Hck in H.
  py_bind H as r0c s1; py_run Hrun r0_tel_getitem_run.
  fold (read_r0_waveform e (telid c)) in H. rewrite Hr in H.
  destruct (_r1_wf c) as [b|] eqn:Hb.
  - py_bind H as u s1; [|discriminate Hrun]. injection Hrun as <- <-.
    py_bind H as tio s1; py_run Hrun targetio_tel_getitem_run.
    py_bind H as u' s1;
      rewrite (call_ApplyEvent_no_item0 ds l W) in Hrun by done;
      [discriminate Hrun|].
    by injection Hrun as <- <-.
  - pose proof (ensure_buffer_alloc c l W
      (mk_state h c (touch_r0 (telid c) e)) Hb HW) as Hal.
    rewrite Hb in Hal.
    py_bind H as u s1; rewrite Hal in Hrun; [|discriminate Hrun].
    injection Hrun as <- <-.
    py_bind H as tio s1; py_run Hrun targetio_tel_getitem_run.
    py_bind H as u' s1.
    all: rewrite (call_ApplyEvent_no_item0 ds l W) in Hrun;
      [ | done
        | cbn; rewrite lookup_insert_ne; [done|];
          by apply fresh_lookup_ne in HW
        | done ].
    + discriminate Hrun.
    + by injection Hrun as <- <-.
Qed.

(** *** Identity behaviour: one new array per call *)

(** X5, identity behaviour copies: a call of a calibrator in identity
    behaviour leaves the calibrator instance and every array of the store
    as they were; when it returns for an event that passed the raw data
    check, the calibrated waveform is an array that did not exist before
    the call, the only one the call added to the store. *)
Theorem X5_identity_result_is_new h (c : TargetIOR1Calibrator) e o s' :
  calibrate_attr c = fake_calibrate_m →
  call_calibrate ApplyEvent check_r0_exists h c e = (o, s') →
  self s' = c ∧
  (∀ l a, h !! l = Some a → heap s' !! l = Some a) ∧
  (o = Return () → check_r0_exists e (telid c) = true →
   ∃ l', read_r1_waveform (event s') (telid c) = Some l' ∧
         h !! l' = None ∧ dom (heap s') = {[ l' ]} ∪ dom h).
Proof.
  intros Ha H. unfold call_calibrate in H.
  calibrate_cases H; try congruence.
  1-4: split; [done|]; split; [done|]; intros; congruence.
  split; [done|]. split.
  - intros l0 a Hl.
    rewrite lookup_insert_ne; [done|]. by apply fresh_lookup_ne in Hl.
  - intros _ _. exists (fresh (dom h)).
    rewrite read_r1_assign. split; [done|].
    split; [apply fresh_lookup_None|]. by rewrite dom_insert_L.
Qed.

(** X6, correction behaviour allocates once: when the calibrator already
    has its buffer, a call in correction behaviour adds no array to the
    store and removes none, and every array other than the buffer keeps
    its contents. *)
Theorem X6_no_allocation_with_buffer h (c : TargetIOR1Calibrator)
    e o s' b :
  calibrate_attr c = real_calibrate_m → _r1_wf c = Some b →
  call_calibrate ApplyEvent check_r0_exists h c e = (o, s') →
  dom (heap s') = dom h ∧ _r1_wf (self s') = Some b ∧
  ∀ l a, l ≠ b → h !! l = Some a → heap s' !! l = Some a.
Proof.
  intros Ha Hb H. unfold call_calibrate in H.
  calibrate_cases H; try congruence; try done.
  cbn in *. simplify_eq. split; [|split; [done|]].
  - apply dom_insert_lookup_L. eauto.
  - intros l0 a Hne Hl. by rewrite lookup_insert_ne.
Qed.

(** *** Construction *)

Lemma fake_calibrate_self (s : State) o s' :
  calibrate_attr (self s) = fake_calibrate_m →
  calibrate ApplyEvent check_r0_exists s = (o, s') → self s' = self s.
Proof. intros Ha H. calibrate_cases H; congruence. Qed.

Lemma init_dataset m cfg (c : TargetIOR1Calibrator) :
  __init__ (Some m) cfg = inr c →
  tc c = m ∧
  calibrator c
    = (if truthy (pedestal_path cfg) then
         match tc_Calibrator m (default ""%string (pedestal_path cfg))
                 (tf_path cfg) [pe_path cfg; ff_path cfg] with
         | inr ds => Some ds
         | inl _ => None
         end
       else None).
Proof.
  intros Hc. unfold __init__, _load_calib in Hc. cbn in Hc.
  destruct (truthy (pedestal_path cfg)).
  - destruct (tc_Calibrator m _ _ _); [done|]. by injection Hc as <-.
  - by injection Hc as <-.
Qed.

Lemma step_dataset h (c : TargetIOR1Calibrator) o :
  tc (step ApplyEvent check_r0_exists (h, c) o).2 = tc c ∧
  calibrator (step ApplyEvent check_r0_exists (h, c) o).2 = calibrator c.
Proof.
  destruct o as [e|cfg|a|l a]; cbn; try done.
  - unfold call_calibrate.
    destruct (calibrate _ _ _) as [o s'] eqn:H.
    apply calibrate_self_frame in H. cbn in *. intuition congruence.
  - by destruct (h !! l).
Qed.

Lemma run_ops_dataset ops h (c : TargetIOR1Calibrator) :
  tc (run_ops ApplyEvent check_r0_exists ops (h, c)).2 = tc c ∧
  calibrator (run_ops ApplyEvent check_r0_exists ops (h, c)).2
    = calibrator c.
Proof.
  unfold run_ops. revert h c.
  induction ops as [|o ops IH]; intros h c; [done|]. cbn [foldl].
  destruct (step _ _ (h, c) o) as [h1 c1] eqn:Hst.
  pose proof (step_dataset h c o) as [Ht Ha]. rewrite Hst in Ht, Ha.
  cbn in Ht, Ha. rewrite <- Ht, <- Ha. apply IH.
Qed.

(** X7, when construction fails: [__init__] raises exactly when the
    import of [target_calib] fails, with [ImportError], or when the
    pedestal path is non-empty and [target_calib.Calibrator] raises, with
    that exception; with an empty pedestal path the other three paths are
    never looked at. *)
Theorem X7_construction_failure imp cfg x :
  __init__ (Dataset := Dataset) imp cfg = inl x ↔
  (imp = None ∧ x = ImportError) ∨
  (∃ m, imp = Some m ∧ truthy (pedestal_path cfg) = true ∧
        tc_Calibrator m (default ""%string (pedestal_path cfg))
          (tf_path cfg) [pe_path cfg; ff_path cfg] = inl x).
Proof.
  unfold __init__, _load_calib. destruct imp as [m|]; cbn.
  - destruct (truthy (pedestal_path cfg)) eqn:Hp.
    + destruct (tc_Calibrator m _ _ _) as [y|ds] eqn:Hl.
      * split.
        -- intros [= ->]. right. by exists m.
        -- intros [[? _]|(m' & [= <-] & _ & Hy)]; [done|]. congruence.
      * split; [done|].
        intros [[? _]|(m' & [= <-] & _ & Hy)]; [done|]. congruence.
    + split; [done|]. intros [[? _]|(m' & _ & ? & _)]; done.
  - split.
    + intros [= <-]. by left.
    + intros [[_ ->]|(m' & ? & _)]; done.
Qed.

(** X8, the calibration data is loaded once: after a successful
    construction the calibration object is the one
    [target_calib.Calibrator] returned for the construction-time paths
    (pedestal, transfer function, [[pe, flat field]]), or [None] when the
    pedestal path was empty; calls of [calibrate] and later assignments
    to the path traits never replace it. *)
Theorem X8_dataset_loaded_once m cfg (c0 : TargetIOR1Calibrator) ops h0 :
  __init__ (Some m) cfg = inr c0 →
  tc (run_ops ApplyEvent check_r0_exists ops (h0, c0)).2 = m ∧
  calibrator (run_ops ApplyEvent check_r0_exists ops (h0, c0)).2
    = (if truthy (pedestal_path cfg) then
         match tc_Calibrator m (default ""%string (pedestal_path cfg))
                 (tf_path cfg) [pe_path cfg; ff_path cfg] with
         | inr ds => Some ds
         | inl _ => None
         end
       else None).
Proof.
  intros Hc. destruct (run_ops_dataset ops h0 c0) as [-> ->].
  by apply init_dataset.
Qed.

(** X9, identity behaviour never touches the instance: a calibrator
    constructed with an empty pedestal path has no buffer and no
    calibration object, and this stays so whatever is calibrated and
    whichever traits are assigned afterwards. *)
Theorem X9_identity_keeps_instance m cfg (c0 : TargetIOR1Calibrator)
    ops h0 :
  __init__ (Some m) cfg = inr c0 →
  truthy (pedestal_path cfg) = false →
  _r1_wf (run_ops ApplyEvent check_r0_exists ops (h0, c0)).2 = None ∧
  calibrator (run_ops ApplyEvent check_r0_exists ops (h0, c0)).2 = None.
Proof.
  intros Hc Hp. split.
  2:{ destruct (run_ops_dataset ops h0 c0) as [_ ->].
      apply init_dataset in Hc as [_ ->]. by rewrite Hp. }
  apply init_inv in Hc as (_ & Hn & _ & Ha & _). rewrite Hp in Ha.
  clear Hp. unfold run_ops. revert h0 c0 Hn Ha.
  induction ops as [|o ops IH]; intros h c Hn Ha; [done|]. cbn [foldl].
  destruct (step _ _ (h, c) o) as [h1 c1] eqn:Hst. apply IH.
  - destruct o as [e|cfg'|a|l a]; cbn in Hst.
    + injection Hst as <- <-. unfold call_calibrate.
      destruct (calibrate _ _ _) as [o s'] eqn:H.
      apply fake_calibrate_self in H; [|done]. cbn in *. congruence.
    + by injection Hst as <- <-.
    + by injection Hst as <- <-.
    + destruct (h !! l); by injection Hst as <- <-.
  - pose proof (step_attrs h c o) as [_ Ha']. rewrite Hst in Ha'.
    cbn in Ha'. congruence.
Qed.

(** *** The cast of raw samples *)

Lemma digits2_pos_iter m k :
  digits2_pos (Pos.iter xO m k) = (digits2_pos m + k)%positive.
Proof.
  induction k as [|k IH] using Pos.peano_ind.
  - cbn. by rewrite Pos.add_1_r.
  - rewrite Pos.iter_succ. cbn. rewrite IH. by rewrite Pos.add_succ_r.
Qed.

Lemma Zpos_iter m k : Z.pos (Pos.iter xO m k) = Z.pos m * 2 ^ Z.pos k.
Proof.
  induction k as [|k IH] using Pos.peano_ind.
  - cbn. lia.
  - rewrite Pos.iter_succ, Pos2Z.inj_xO, IH, Pos2Z.inj_succ, Z.pow_succ_r
      by lia. lia.
Qed.

Lemma digits2_pos_le m : 2 ^ (Z.pos (digits2_pos m) - 1) ≤ Z.pos m.
Proof.
  induction m as [p IH|p IH|]; cbn [digits2_pos]; [| |done].
  - rewrite Pos2Z.inj_succ.
    replace (Z.succ (Z.pos (digits2_pos p)) - 1)
      with (Z.succ (Z.pos (digits2_pos p) - 1)) by lia.
    rewrite Z.pow_succ_r by lia. lia.
  - rewrite Pos2Z.inj_succ.
    replace (Z.succ (Z.pos (digits2_pos p)) - 1)
      with (Z.succ (Z.pos (digits2_pos p) - 1)) by lia.
    rewrite Z.pow_succ_r by lia. lia.
Qed.

Lemma binary_round_aux_exact mz ez :
  digits2_pos mz = 24%positive → -149 ≤ ez ≤ 104 →
  binary_round_aux 24 128 false (Z.pos mz) ez loc_Exact
    = S754_finite false mz ez.
Proof.
  intros Hd He. unfold binary_round_aux, shr_fexp.
  cbn [Zdigits2 shr_record_of_loc]. rewrite Hd.
  replace (fexp 24 128 (24 + ez) - ez) with 0 by (unfold fexp, emin; lia).
  cbn [shr shr_m loc_of_shr_record round_nearest_even Zdigits2
       shr_record_of_loc].
  rewrite Hd.
  replace (fexp 24 128 (24 + ez) - ez) with 0 by (unfold fexp, emin; lia).
  cbn [shr shr_m].
  replace (ez <=? 128 - 24) with true by (symmetry; apply Z.leb_le; lia).
  done.
Qed.

Lemma f32_of_Z_exact n : 0 ≤ n < 2 ^ 24 → Exact.Z_of_f32 (f32_of_Z n) = Some n.
Proof.
  intros Hn. destruct n as [|m|m]; [done| |lia].
  pose proof (digits2_pos_le m) as Hle.
  assert (Z.pos (digits2_pos m) ≤ 24) as Hd.
  { destruct (decide (Z.pos (digits2_pos m) ≤ 24)) as [|Hgt]; [done|].
    assert (2 ^ 24 ≤ 2 ^ (Z.pos (digits2_pos m) - 1))
      by (apply Z.pow_le_mono_r; lia). lia. }
  unfold f32_of_Z, f32_prec, f32_emax, binary_normalize, binary_round,
    shl_align.
  replace (fexp 24 128 (Z.pos (digits2_pos m) + 0))
    with (Z.pos (digits2_pos m) - 24) by (unfold fexp, emin; lia).
  destruct (Z.pos (digits2_pos m) - 24 - 0) as [|k|k] eqn:Hk; [|lia|].
  - rewrite binary_round_aux_exact; [|apply Pos2Z.inj; lia|lia].
    cbn. f_equal. lia.
  - rewrite binary_round_aux_exact; [| |lia].
    2:{ rewrite digits2_pos_iter. apply Pos2Z.inj. lia. }
    assert (Z.pos (digits2_pos m) - 24 = Z.neg k) as -> by lia.
    cbn [Exact.Z_of_f32 Z.leb Z.compare Z.opp]. rewrite Zpos_iter.
    rewrite Z.mod_mul by lia. cbn [Z.eqb].
    rewrite Z.div_mul by lia. done.
Qed.

Lemma astype_float32_exact a :
  forallb Exact.is_uint16 (nd_data a) = true →
  Exact.integer_of <$> nd_data (astype_float32 a)
    = Exact.integer_of <$> nd_data a.
Proof.
  intros Hall. cbn. rewrite <- list_fmap_compose.
  rewrite forallb_forall in Hall.
  apply list_eq. intros i. rewrite !list_lookup_fmap.
  destruct (nd_data a !! i) as [s|] eqn:Hs; [|done]. cbn. f_equal.
  apply list_elem_of_lookup_2, list_elem_of_In, Hall in Hs.
  destruct s as [n|x]; [|done]. cbn in *.
  apply andb_prop in Hs as [H0 H1].
  apply f32_of_Z_exact. lia.
Qed.

(** X10, the cast loses nothing: for an array of [uint16] samples,
    every element of [astype('float32')] is equal, as a number, to the
    element it was cast from; the shape is the same and the result has
    element type [float32]. *)
Theorem X10_uint16_cast_is_exact a :
  forallb Exact.is_uint16 (nd_data a) = true →
  Exact.integer_of <$> nd_data (astype_float32 a)
    = Exact.integer_of <$> nd_data a ∧
  nd_shape (astype_float32 a) = nd_shape a ∧
  nd_dtype (astype_float32 a) = float32.
Proof. intros Hall. split; [|done]. by apply astype_float32_exact. Qed.

(** X13, the first assertion of the repository's test: a calibrator
    constructed without pedestal path calibrates an event with [uint16]
    raw samples; when the call returns, the raw waveform is still the
    array it was, and the calibrated waveform has the same shape and,
    element by element, the same numbers. *)
Theorem X13_identity_equals_raw m cfg (c0 : TargetIOR1Calibrator)
    h e s' l W :
  __init__ (Some m) cfg = inr c0 →
  truthy (pedestal_path cfg) = false →
  check_r0_exists e 0 = true →
  read_r0_waveform e 0 = Some l → h !! l = Some W →
  forallb Exact.is_uint16 (nd_data W) = true →
  call_calibrate ApplyEvent check_r0_exists h c0 e = (Return (), s') →
  ∃ l' A,
    read_r0_waveform (event s') 0 = Some l ∧ heap s' !! l = Some W ∧
    read_r1_waveform (event s') 0 = Some l' ∧ heap s' !! l' = Some A ∧
    nd_shape A = nd_shape W ∧
    Exact.integer_of <$> nd_data A = Exact.integer_of <$> nd_data W.
Proof.
  intros Hc Hp Hck Hr HW Hu H.
  apply init_inv in Hc as (_ & _ & Ht & Ha & _). rewrite Hp in Ha.
  unfold call_calibrate in H.
  pose proof (calibrate_event_frame _ _ _ H) as (_ & _ & _ & Hr0).
  cbn in Hr0.
  remember (Return ()) as o eqn:Ho in H.
  calibrate_cases H; try congruence.
  rewrite Ht in *. simplify_eq.
  exists (fresh (dom h)), (astype_float32 W).
  rewrite Hr0, read_r1_assign, lookup_insert_eq.
  rewrite lookup_insert_ne by (by apply fresh_lookup_ne in HW).
  repeat split; try done. by apply astype_float32_exact.
Qed.

(** *** The buffer as an array *)

Lemma fill_item0_length cell a :
  length (nd_data (fill_item0 cell a)) = length (nd_data a).
Proof.
  cbn. rewrite length_app, length_imap, length_take, length_drop. lia.
Qed.

Lemma write_item0_length cell a :
  length (nd_data (write_item0 cell a)) = length (nd_data a).
Proof.
  unfold write_item0. destruct (is_view0 a); [|done].
  apply fill_item0_length.
Qed.

Lemma overwrite_length xs a :
  length (nd_data (overwrite xs a)) = length (nd_data a).
Proof.
  cbn. rewrite length_take, length_app, length_drop. lia.
Qed.

Lemma zeros_length shape : length (nd_data (zeros shape)) = size_of shape.
Proof. cbn. apply length_replicate. Qed.

Lemma chan_size_le a :
  has_item0 a = true → (chan_size a ≤ size_of (nd_shape a))%nat.
Proof.
  unfold has_item0, chan_size. destruct (nd_shape a) as [|[|n] rest]; try done.
  intros _. cbn. lia.
Qed.

Lemma fill_item0_lookup cell a i :
  (chan_size a ≤ length (nd_data a))%nat → (i < chan_size a)%nat →
  nd_data (fill_item0 cell a) !! i = Some (F32 (cell i)).
Proof.
  intros Hle Hi. cbn.
  rewrite lookup_app_l by (rewrite length_imap, length_take; lia).
  rewrite list_lookup_imap.
  destruct (lookup_lt_is_Some_2 (take (chan_size a) (nd_data a)) i)
    as [x ->]; [|done].
  rewrite length_take. lia.
Qed.

Lemma calibrate_buffer_kept_length s o s' b buf :
  calibrate ApplyEvent check_r0_exists s = (o, s') →
  _r1_wf (self s) = Some b → heap s !! b = Some buf →
  ∃ buf', heap s' !! b = Some buf' ∧
          length (nd_data buf') = length (nd_data buf).
Proof.
  intros H Hb Hl. pose proof (fresh_lookup_ne _ _ _ Hl) as Hfr.
  calibrate_cases H; try (by eauto); try congruence.
  - exists buf. by rewrite lookup_insert_ne.
  - simplify_eq. rewrite lookup_insert_eq. eexists. split; [done|].
    by rewrite write_item0_length.
Qed.

Lemma calibrate_buffer_new_length s o s' b :
  calibrate ApplyEvent check_r0_exists s = (o, s') →
  _r1_wf (self s) = None → _r1_wf (self s') = Some b →
  ∃ buf, heap s' !! b = Some buf ∧
         length (nd_data buf) = size_of (nd_shape buf).
Proof.
  intros H Hn Hb.
  calibrate_cases H; try congruence; cbn in *; simplify_eq.
  - rewrite lookup_insert_eq. eexists. split; [done|]. apply zeros_length.
  - rewrite lookup_insert_eq in *. simplify_eq.
    eexists. split; [done|].
    rewrite write_item0_length, write_item0_shape. apply zeros_length.
Qed.

Lemma calibrate_buffer_wf s o s' :
  calibrate ApplyEvent check_r0_exists s = (o, s') →
  buffer_wf (heap s) (self s) → buffer_wf (heap s') (self s').
Proof.
  intros H Hinv b Hb. destruct (_r1_wf (self s)) as [b0|] eqn:Hb0.
  - pose proof (calibrate_buffer_stable _ _ _ _ H Hb0) as Hb1.
    rewrite Hb in Hb1. injection Hb1 as ->.
    destruct (Hinv b0 Hb0) as (buf & Hbuf & Hd & Hlen).
    destruct (calibrate_buffer_kept _ _ _ _ _ H Hb0 Hbuf)
      as (buf' & Hbuf' & Hsh & Hdt & _).
    destruct (calibrate_buffer_kept_length _ _ _ _ _ H Hb0 Hbuf)
      as (buf'' & Hbuf'' & Hlen').
    rewrite Hbuf' in Hbuf''. injection Hbuf'' as <-.
    exists buf'. split; [done|]. split; congruence.
  - destruct (calibrate_buffer_new _ _ _ _ H Hb0 Hb)
      as (_ & _ & _ & buf & _ & _ & Hbuf & _ & Hdt & _).
    destruct (calibrate_buffer_new_length _ _ _ _ H Hb0 Hb)
      as (buf' & Hbuf' & Hlen).
    rewrite Hbuf in Hbuf'. injection Hbuf' as <-. eauto.
Qed.

Lemma step_buffer_wf h (c : TargetIOR1Calibrator) o :
  buffer_wf h c →
  buffer_wf (step ApplyEvent check_r0_exists (h, c) o).1
            (step ApplyEvent check_r0_exists (h, c) o).2.
Proof.
  intros Hinv. destruct o as [e|cfg|a|l a]; cbn.
  - unfold call_calibrate.
    destruct (calibrate _ _ _) as [o s'] eqn:H. cbn.
    by apply (calibrate_buffer_wf _ _ _ H).
  - done.
  - intros b Hb. destruct (Hinv b Hb) as (buf & Hbuf & Hz).
    exists buf. split; [|done].
    rewrite lookup_insert_ne; [done|].
    intros Heq. by apply (fresh_lookup_ne _ _ _ Hbuf).
  - destruct (h !! l) as [old|] eqn:Hold; [|done]. cbn.
    intros b Hb. destruct (Hinv b Hb) as (buf & Hbuf & Hd & Hlen).
    destruct (decide (l = b)) as [->|Hne].
    + rewrite lookup_insert_eq. rewrite Hold in Hbuf. injection Hbuf as ->.
      eexists. split; [done|]. split; [done|]. by rewrite overwrite_length.
    + exists buf. by rewrite lookup_insert_ne.
Qed.

Lemma run_ops_buffer_wf ops h (c : TargetIOR1Calibrator) :
  buffer_wf h c →
  buffer_wf (run_ops ApplyEvent check_r0_exists ops (h, c)).1
            (run_ops ApplyEvent check_r0_exists ops (h, c)).2.
Proof.
  unfold run_ops. revert h c.
  induction ops as [|o ops IH]; intros h c Hinv; [done|]. cbn [foldl].
  pose proof (step_buffer_wf h c o Hinv) as Hst.
  destruct (step _ _ (h, c) o) as [h1 c1]. by apply IH.
Qed.

(** X11, the calibrated waveform is a [float32] array: at any point of
    the life of a calibrator, in either behaviour, a call that returns
    for an event that passed the raw data check leaves in
    [event.r1.tel[0].waveform] an array of the store whose element type
    is [float32]. *)
Theorem X11_calibrated_waveform_is_float32 m cfg
    (c0 c : TargetIOR1Calibrator) ops h0 h e s' :
  __init__ (Some m) cfg = inr c0 →
  run_ops ApplyEvent check_r0_exists ops (h0, c0) = (h, c) →
  check_r0_exists e 0 = true →
  call_calibrate ApplyEvent check_r0_exists h c e = (Return (), s') →
  ∃ l A, read_r1_waveform (event s') 0 = Some l ∧
         heap s' !! l = Some A ∧ nd_dtype A = float32.
Proof.
  intros Hc Hrun Hck H.
  apply init_inv in Hc as (_ & Hn & Ht & Ha & _).
  pose proof (run_ops_attrs ops h0 c0) as [Ht' Ha']. rewrite Hrun in Ht', Ha'.
  cbn in Ht', Ha'. rewrite Ht in Ht'. rewrite Ha in Ha'.
  assert (buffer_wf h c) as Hinv.
  { pose proof (run_ops_buffer_wf ops h0 c0) as Hi. rewrite Hrun in Hi.
    apply Hi. intros b Hb. congruence. }
  unfold call_calibrate in H.
  pose proof (calibrate_buffer_wf _ _ _ H Hinv) as Hinv'.
  destruct (truthy (pedestal_path cfg)).
  - destruct (real_returned (mk_state h c e) s') as (b & buf & Hb & Hr & Hbuf);
      cbn; rewrite ?Ht'; try done.
    cbn in Hr. rewrite Ht' in Hr.
    destruct (Hinv' b Hb) as (buf' & Hbuf' & Hdt & _).
    exists b, buf'. done.
  - remember (Return ()) as o eqn:Ho in H.
    calibrate_cases H; try congruence.
    rewrite Ht' in *.
    exists (fresh (dom h)), (astype_float32 W).
    by rewrite read_r1_assign, lookup_insert_eq.
Qed.

(** X12, channel 0 holds what [ApplyEvent] computed: for a calibrator
    constructed in correction behaviour, at any point of its life, a call
    that returns for an event that passed the raw data check has given
    [ApplyEvent] channel 0 of the event's raw samples, the first cell ids
    and channel 0 of the buffer as it was (zeros, if the call allocated
    it).  The calibrated waveform is the buffer, with the shape it had
    and as many elements as that shape says.  When the buffer has two
    axes or more, every cell [i] of its channel 0 holds the value
    [ApplyEvent] computed for cell [i]; when it has one axis only, the
    object given to [ApplyEvent] was a scalar copy and the buffer is as
    it was. *)
Theorem X12_channel_0_holds_result m cfg (c0 c : TargetIOR1Calibrator)
    ops h0 h e s' :
  __init__ (Some m) cfg = inr c0 →
  truthy (pedestal_path cfg) = true →
  run_ops ApplyEvent check_r0_exists ops (h0, c0) = (h, c) →
  check_r0_exists e 0 = true →
  call_calibrate ApplyEvent check_r0_exists h c e = (Return (), s') →
  ∃ b buf ds l W fv out cell,
    read_r1_waveform (event s') 0 = Some b ∧
    heap s' !! b = Some buf ∧
    read_r0_waveform e 0 = Some l ∧ h !! l = Some W ∧
    calibrator c = Some ds ∧
    match _r1_wf c with
    | Some b0 => b0 = b ∧ h !! b = Some out
    | None => h !! b = None ∧ out = zeros (nd_shape W)
    end ∧
    arg_value (match _r1_wf c with Some _ => h | None => <[b := out]> h end)
      (read_fci e 0) = Some fv ∧
    ApplyEvent ds (item0 W) fv (item0 out) = inr cell ∧
    nd_shape buf = nd_shape out ∧
    length (nd_data buf) = size_of (nd_shape buf) ∧
    (is_view0 out = true →
     (chan_size buf ≤ length (nd_data buf))%nat ∧
     ∀ i, (i < chan_size buf)%nat → nd_data buf !! i = Some (F32 (cell i))) ∧
    (is_view0 out = false → buf = out).
Proof.
  intros Hc Hp Hrun Hck H.
  apply init_inv in Hc as (_ & Hn & Ht & Ha & _). rewrite Hp in Ha.
  pose proof (run_ops_attrs ops h0 c0) as [Ht' Ha']. rewrite Hrun in Ht', Ha'.
  cbn in Ht', Ha'. rewrite Ht in Ht'. rewrite Ha in Ha'.
  assert (buffer_wf h c) as Hinv.
  { pose proof (run_ops_buffer_wf ops h0 c0) as Hi. rewrite Hrun in Hi.
    apply Hi. intros b Hb. congruence. }
  unfold call_calibrate in H.
  pose proof (calibrate_buffer_wf _ _ _ H Hinv) as Hinv'.
  rewrite calibrate_unfold in H. cbn in H. rewrite Ha' in H.
  apply real_calibrate_inv in H. cbn in H.
  remember (Return ()) as o eqn:Ho in H.
  destruct H as [ | | Hor Hsk | x ? ? Hbuf | h1 c1 x ? ? Hbuf Happ
                | h1 c1 h2 Hor Hck' Hbuf Happ ];
    cbn in *; rewrite ?Ht' in *; try congruence.
  inversion Happ as [ds l W fv b buf0 cell Hcal Hl HW _ Hfv Hb Hbuf0
                       H0 Happly | ]; subst.
  destruct (Hinv' b Hb) as (buf & Hbuf' & _ & Hlen).
  rewrite lookup_insert_eq in Hbuf'. injection Hbuf' as <-.
  rewrite write_item0_length, write_item0_shape in Hlen.
  assert (chan_size buf0 ≤ length (nd_data buf0))%nat as Hle
    by (rewrite Hlen; by apply chan_size_le).
  assert (nd_shape (write_item0 cell buf0) = nd_shape buf0 ∧
          length (nd_data (write_item0 cell buf0))
            = size_of (nd_shape (write_item0 cell buf0)) ∧
          (is_view0 buf0 = true →
           (chan_size (write_item0 cell buf0)
              ≤ length (nd_data (write_item0 cell buf0)))%nat ∧
           ∀ i, (i < chan_size (write_item0 cell buf0))%nat →
                nd_data (write_item0 cell buf0) !! i = Some (F32 (cell i))) ∧
          (is_view0 buf0 = false → write_item0 cell buf0 = buf0)) as Hres.
  { split; [apply write_item0_shape|].
    split; [by rewrite write_item0_length, write_item0_shape|].
    unfold write_item0. split; intros Hv; rewrite Hv; [|done].
    split; [by rewrite fill_item0_length|].
    intros i Hi. by apply fill_item0_lookup. }
  exists b, (write_item0 cell buf0), ds, l, W, fv, buf0, cell.
  rewrite read_r1_assign, lookup_insert_eq.
  inversion Hbuf as [b' Hb' | l' W' Hn' Hl' HW'' | ]; subst.
  - rewrite Hb. repeat split; try done; by apply Hres.
  - cbn in Hb, Hcal. injection Hb as <-. rewrite Hn'.
    rewrite lookup_insert_eq in Hbuf0. injection Hbuf0 as <-.
    rewrite Hl in Hl'. injection Hl' as <-.
    rewrite lookup_insert_ne in HW by (by apply fresh_lookup_ne in HW'').
    rewrite HW in HW''. injection HW'' as <-.
    repeat split; try done; try apply fresh_lookup_None; by apply Hres.
Qed.

End Properties.

(** ** The claims on concrete events *)

Module Examples.
Import Sample.

Lemma init_fake_calibrator : __init__ (Some tc) no_paths = inr fake_calibrator.
Proof. reflexivity. Qed.

Lemma init_real_calibrator : __init__ (Some tc) ped_only = inr real_calibrator.
Proof. reflexivity. Qed.

(** C1 on [event_a]: the identity calibrator, after its pedestal path
    trait was assigned, still casts the raw waveform. *)
Lemma C1_identity_behavior_witness :
  ∃ s' l',
    call_calibrate ApplyEvent check_r0_exists store
      (set_config ped_only fake_calibrator) event_a = (Return (), s') ∧
    read_r1_waveform (event s') 0 = Some l' ∧
    heap s' !! l' = Some (astype_float32 raw_a) ∧
    nd_data (astype_float32 raw_a) = to_float32 <$> nd_data raw_a ∧
    nd_shape (astype_float32 raw_a) = nd_shape raw_a.
Proof.
  apply (C1_identity_behavior ApplyEvent check_r0_exists tc no_paths
           fake_calibrator (set_config ped_only fake_calibrator)
           [op_configure ped_only] store store event_a 0%nat raw_a);
    reflexivity.
Defined.

(** C2 on an event without raw waveform: the raw data check fails and
    no error is raised, in either behaviour; the call returns. *)
Lemma C2_missing_data_guard_counterexample :
  meta (event_with "targetio" None) !! "origin"%string
    = Some "targetio"%string ∧
  check_r0_exists (event_with "targetio" None) 0 = false ∧
  (call_calibrate ApplyEvent check_r0_exists store real_calibrator
     (event_with "targetio" None)).1 = Return () ∧
  (call_calibrate ApplyEvent check_r0_exists store fake_calibrator
     (event_with "targetio" None)).1 = Return ().
Proof. repeat split; reflexivity. Qed.

Lemma C2_missing_data_is_skipped_witness :
  (call_calibrate ApplyEvent check_r0_exists store real_calibrator
     (event_with "targetio" None)).1 = Return () ∧
  r1 (event (call_calibrate ApplyEvent check_r0_exists store real_calibrator
               (event_with "targetio" None)).2)
    = r1 (event_with "targetio" None) ∧
  heap (call_calibrate ApplyEvent check_r0_exists store real_calibrator
          (event_with "targetio" None)).2 = store.
Proof.
  apply (C2_missing_data_is_skipped ApplyEvent check_r0_exists); reflexivity.
Defined.

(** C3 on [event_a] then [event_b]: both calls return, and the
    calibrated waveform of [event_b] has the shape of [raw_a], not of
    [raw_b]. *)
Lemma C3_shape_robustness_counterexample :
  first_call.1 = Return () ∧ second_call.1 = Return () ∧
  nd_shape raw_a = [2; 2; 3]%nat ∧ nd_shape raw_b = [1; 2; 2]%nat ∧
  nd_shape <$> r1_array second_call.2 0 = Some [2; 2; 3]%nat ∧
  _r1_wf (self first_call.2) = _r1_wf (self second_call.2).
Proof. vm_compute. repeat split; reflexivity. Qed.

Lemma C3_buffer_allocated_once_witness :
  ∃ b buf1 buf2,
    store !! b = None ∧
    _r1_wf (self first_call.2) = Some b ∧
    heap first_call.2 !! b = Some buf1 ∧
    nd_shape buf1 = nd_shape raw_a ∧
    _r1_wf (self second_call.2) = Some b ∧
    heap second_call.2 !! b = Some buf2 ∧
    nd_shape buf2 = nd_shape raw_a ∧
    read_r1_waveform (event second_call.2) (telid real_calibrator) = Some b.
Proof.
  apply (C3_buffer_allocated_once ApplyEvent check_r0_exists store
           real_calibrator event_a event_b first_call.2 second_call.2
           0%nat raw_a); vm_compute; reflexivity.
Defined.

Lemma C4_origin_guard_witness :
  call_calibrate ApplyEvent check_r0_exists store real_calibrator
    (event_with "hessio" (Some 0%nat))
    = (Raise ValueError,
       mk_state store real_calibrator (event_with "hessio" (Some 0%nat))) ∧
  r1_tel (r1 (event (call_calibrate ApplyEvent check_r0_exists store
                       real_calibrator (event_with "hessio" (Some 0%nat))).2))
    = r1_tel (r1 (event_with "hessio" (Some 0%nat))).
Proof.
  apply (C4_origin_guard ApplyEvent check_r0_exists store real_calibrator
           (event_with "hessio" (Some 0%nat)) "hessio"%string);
    [discriminate | reflexivity | discriminate].
Defined.

Lemma C6_only_telescope_0_witness :
  telid real_calibrator = 0 ∧
  telid (run_ops ApplyEvent check_r0_exists [op_calibrate event_a]
           (store, real_calibrator)).2 = 0 ∧
  ∀ h c o s',
    run_ops ApplyEvent check_r0_exists [op_calibrate event_a]
      (store, real_calibrator) = (h, c) →
    call_calibrate ApplyEvent check_r0_exists h c event_b = (o, s') →
    telid (self s') = 0 ∧
    ∀ t, t ≠ 0 →
      r1_tel (r1 (event s')) !! t = r1_tel (r1 event_b) !! t ∧
      r0_tel (r0 (event s')) !! t = r0_tel (r0 event_b) !! t ∧
      tio_tel (targetio (event s')) !! t = tio_tel (targetio event_b) !! t.
Proof.
  apply (C6_only_telescope_0 ApplyEvent check_r0_exists tc ped_only
           real_calibrator [op_calibrate event_a] store event_b).
  reflexivity.
Defined.

Lemma C7_buffer_aliasing_witness :
  ∃ b buf1 ds l2 W2 fv cell,
    _r1_wf (self first_call.2) = Some b ∧
    _r1_wf (self second_call.2) = Some b ∧
    read_r1_waveform (event first_call.2) (telid real_calibrator) = Some b ∧
    read_r1_waveform (event second_call.2) (telid real_calibrator) = Some b ∧
    heap first_call.2 !! b = Some buf1 ∧
    calibrator real_calibrator = Some ds ∧
    read_r0_waveform event_b (telid real_calibrator) = Some l2 ∧
    heap first_call.2 !! l2 = Some W2 ∧
    arg_value (heap first_call.2) (read_fci event_b (telid real_calibrator))
      = Some fv ∧
    ApplyEvent ds (item0 W2) fv (item0 buf1) = inr cell ∧
    heap second_call.2 !! b = Some (write_item0 cell buf1).
Proof.
  apply (C7_buffer_aliasing ApplyEvent check_r0_exists store real_calibrator
           event_a event_b first_call.2 second_call.2);
    vm_compute; reflexivity.
Defined.

Lemma C8_channel_0_only_witness :
  ∃ b buf ds l W fv out cell,
    read_r1_waveform (event second_call.2) 0 = Some b ∧
    heap second_call.2 !! b = Some buf ∧
    read_r0_waveform event_b 0 = Some l ∧
    heap first_call.2 !! l = Some W ∧
    calibrator (self first_call.2) = Some ds ∧
    match _r1_wf (self first_call.2) with
    | Some b0 => b0 = b ∧ heap first_call.2 !! b = Some out
    | None => heap first_call.2 !! b = None ∧ out = zeros (nd_shape W)
    end ∧
    arg_value (match _r1_wf (self first_call.2) with
               | Some _ => heap first_call.2
               | None => <[b := out]> (heap first_call.2)
               end) (read_fci event_b 0) = Some fv ∧
    ApplyEvent ds (item0 W) fv (item0 out) = inr cell ∧
    buf = write_item0 cell out ∧
    Forall (λ x, x = F32 f32_zero) (upper_channels buf).
Proof.
  apply (C8_channel_0_only ApplyEvent check_r0_exists tc ped_only
           real_calibrator (self first_call.2) [op_calibrate event_a]
           store (heap first_call.2) event_b second_call.2);
    [reflexivity | reflexivity | cbn; done | vm_compute; reflexivity
    | reflexivity | vm_compute; reflexivity].
Defined.

Lemma C9_raw_container_unchanged_witness :
  tels_with_data (r0 (event first_call.2)) = tels_with_data (r0 event_a) ∧
  (∀ t, read_r0_waveform (event first_call.2) t = read_r0_waveform event_a t) ∧
  read_r0_waveform (event first_call.2) (telid real_calibrator) = Some 0%nat ∧
  heap first_call.2 !! 0%nat = Some raw_a.
Proof.
  apply (C9_raw_container_unchanged ApplyEvent check_r0_exists store
           real_calibrator event_a first_call.1 first_call.2 0%nat raw_a);
    [vm_compute; reflexivity | reflexivity | reflexivity | discriminate].
Defined.

End Examples.


(** ** Containers: copies are new objects *)

Section CoreProperties.
Import Core.

Lemma value_ind (P : value → Prop) :
(∀ a, P (VAtom a)) →
(∀ xs, Forall P xs → P (VList xs)) →
(∀ factory items, Forall (λ kv, P kv.2) items → P (VMap factory items)) →
(∀ name fields, Forall (λ kv, P kv.2) fields → P (VContainer name fields)) →
∀ v, P v.
Proof.
intros Ha Hl Hm Hc. fix IH 1. intros [a|xs|factory items|name fields].
- apply Ha.
- apply Hl. induction xs as [|x xs IHxs]; constructor; [apply IH | apply IHxs].
- apply Hm. induction items as [|[k x] xs IHxs]; constructor;
    [apply IH | apply IHxs].
- apply Hc. induction fields as [|[k x] xs IHxs]; constructor;
    [apply IH | apply IHxs].
Qed.

Lemma within_mono n m n' m' c :
(n' ≤ n)%nat → (m ≤ m')%nat → within n m c → within n' m' c.
Proof. destruct c; cbn; lia. Qed.

Lemma extends_refl h : extends h h.
Proof. exists []. by rewrite app_nil_r. Qed.

Lemma extends_length h h1 : extends h h1 → (length h ≤ length h1)%nat.
Proof. intros (k & -> & _). rewrite length_app. lia. Qed.

Lemma extends_trans h h1 h2 : extends h h1 → extends h1 h2 → extends h h2.
Proof.
intros H1 H2. pose proof (extends_length _ _ H1) as L1.
pose proof (extends_length _ _ H2) as L2.
destruct H1 as (k1 & E1 & F1), H2 as (k2 & E2 & F2).
exists (k1 ++ k2). split; [by rewrite E2, E1, <- app_assoc|].
apply Forall_app. split.
- eapply Forall_impl; [exact F1|]. intros o Ho. eapply Forall_impl; [exact Ho|].
  intros c. apply within_mono; lia.
- eapply Forall_impl; [exact F2|]. intros o Ho. eapply Forall_impl; [exact Ho|].
  intros c. apply within_mono; lia.
Qed.

Lemma extends_lookup h h1 l : extends h h1 → (l < length h)%nat → h1 !! l = h !! l.
Proof. intros (k & -> & _) Hl. by rewrite lookup_app_l. Qed.

Lemma keeps_first h h1 h2 h' :
extends h h1 → extends h1 h2 → keeps h h2 h' → keeps h h1 h'.
Proof.
intros H1 H2 K l Hl. pose proof (extends_length _ _ H2).
rewrite K by lia. apply extends_lookup; [done | lia].
Qed.

Lemma keeps_second h h1 h2 h' :
extends h h1 → keeps h h2 h' → keeps h1 h2 h'.
Proof. intros H1 K l Hl. pose proof (extends_length _ _ H1). apply K. lia. Qed.

Lemma new_extends h h1 o c h2 :
extends h h1 →
Forall (within (length h) (length h1)) (cells_of o) →
new o h1 = (c, h2) →
extends h h2 ∧ c = Ref (length h1) ∧ within (length h) (length h2) c ∧
h2 !! length h1 = Some o.
Proof.
intros H1 Ho [= <- <-]. pose proof (extends_length _ _ H1) as L.
split; [|split; [done|split]].
- destruct H1 as (k & E & F). exists (k ++ [o]).
  split; [by rewrite E at 1; rewrite <- app_assoc|].
  apply Forall_app. split; [|constructor; [|constructor]].
  + eapply Forall_impl; [exact F|]. intros o' Ho'.
    eapply Forall_impl; [exact Ho'|]. intros c.
    apply within_mono; [done|]. rewrite length_app. lia.
  + eapply Forall_impl; [exact Ho|]. intros c.
    apply within_mono; [done|]. rewrite length_app. lia.
- cbn. rewrite length_app. cbn. lia.
- by apply list_lookup_middle.
Qed.

Lemma copy_each_ok xs :
Forall copy_ok xs →
∀ h cs h1, copy_each deepcopy xs h = (cs, h1) →
  extends h h1 ∧ Forall (within (length h) (length h1)) cs ∧
  ∀ h', keeps h h1 h' → all2 (represents h') xs cs = true.
Proof.
induction 1 as [|x xs Hx _ IH]; intros h cs h1 Hrun; cbn in Hrun.
- injection Hrun as <- <-. split; [apply extends_refl|]. by split.
- destruct (deepcopy x h) as [c ha] eqn:Hc.
  destruct (copy_each deepcopy xs ha) as [cs' hb] eqn:Hcs.
  injection Hrun as <- <-.
  destruct (Hx _ _ _ Hc) as (E1 & W1 & R1).
  destruct (IH _ _ _ Hcs) as (E2 & W2 & R2).
  pose proof (extends_length _ _ E1). pose proof (extends_length _ _ E2).
  split; [by eapply extends_trans|]. split.
  + constructor; [eapply within_mono; [| |exact W1]; lia|].
    eapply Forall_impl; [exact W2|]. intros c'. apply within_mono; lia.
  + intros h' K. cbn. rewrite R1 by (by eapply keeps_first). cbn.
    apply R2. by eapply keeps_second.
Qed.

Lemma copy_items_ok {K} `{EqDecision K} (xs : list (K * value)) :
Forall (λ kv, copy_ok kv.2) xs →
∀ h cs h1, copy_items deepcopy xs h = (cs, h1) →
  extends h h1 ∧ Forall (within (length h) (length h1)) cs.*2 ∧
  ∀ h', keeps h h1 h' → all2 (entry_represents h') xs cs = true.
Proof.
induction 1 as [|[k x] xs Hx _ IH]; intros h cs h1 Hrun; cbn in Hrun.
- injection Hrun as <- <-. split; [apply extends_refl|]. by split.
- destruct (deepcopy x h) as [c ha] eqn:Hc.
  destruct (copy_items deepcopy xs ha) as [cs' hb] eqn:Hcs.
  injection Hrun as <- <-.
  destruct (Hx _ _ _ Hc) as (E1 & W1 & R1).
  destruct (IH _ _ _ Hcs) as (E2 & W2 & R2).
  pose proof (extends_length _ _ E1). pose proof (extends_length _ _ E2).
  split; [by eapply extends_trans|]. split.
  + cbn. constructor; [eapply within_mono; [| |exact W1]; lia|].
    eapply Forall_impl; [exact W2|]. intros c'. apply within_mono; lia.
  + intros h' Hk. cbn. rewrite bool_decide_eq_true_2 by done. cbn in R1.
    rewrite R1 by (by eapply keeps_first). cbn.
    apply R2. by eapply keeps_second.
Qed.

Lemma deepcopy_ok v : copy_ok v.
Proof.
induction v as [a|xs IH|factory items IH|name fields IH] using value_ind;
  intros h c h1 Hrun; cbn in Hrun.
- injection Hrun as <- <-. split; [apply extends_refl|]. split; [done|].
  intros h' _. cbn. by apply bool_decide_eq_true_2.
- destruct (copy_each deepcopy xs h) as [cs ha] eqn:Hcs.
  destruct (copy_each_ok _ IH _ _ _ Hcs) as (E & W & R).
  destruct (new_extends _ _ (OList cs) _ _ E W Hrun) as (E' & -> & W' & Hl).
  split; [done|]. split; [done|]. intros h' Hk. cbn.
  pose proof (extends_length _ _ E).
  assert (length ha < length h1)%nat
    by (injection Hrun as <-; rewrite length_app; cbn; lia).
  rewrite Hk, Hl by lia. apply R. intros l' Hl'. rewrite Hk by lia.
  injection Hrun as <-. apply lookup_app_l. lia.
- destruct (copy_items deepcopy items h) as [cs ha] eqn:Hcs.
  destruct (copy_items_ok _ IH _ _ _ Hcs) as (E & W & R).
  destruct (new_extends _ _ (OMap factory cs) _ _ E W Hrun)
    as (E' & -> & W' & Hl).
  split; [done|]. split; [done|]. intros h' Hk. cbn.
  pose proof (extends_length _ _ E).
  assert (length ha < length h1)%nat
    by (injection Hrun as <-; rewrite length_app; cbn; lia).
  rewrite Hk, Hl by lia. rewrite bool_decide_eq_true_2 by done. cbn.
  apply R. intros l' Hl'. rewrite Hk by lia.
  injection Hrun as <-. apply lookup_app_l. lia.
- destruct (copy_items deepcopy fields h) as [cs ha] eqn:Hcs.
  destruct (copy_items_ok _ IH _ _ _ Hcs) as (E & W & R).
  destruct (new_extends _ _ (OContainer name cs) _ _ E W Hrun)
    as (E' & -> & W' & Hl).
  split; [done|]. split; [done|]. intros h' Hk. cbn.
  pose proof (extends_length _ _ E).
  assert (length ha < length h1)%nat
    by (injection Hrun as <-; rewrite length_app; cbn; lia).
  rewrite Hk, Hl by lia. rewrite bool_decide_eq_true_2 by done. cbn.
  apply R. intros l' Hl'. rewrite Hk by lia.
  injection Hrun as <-. apply lookup_app_l. lia.
Qed.

Lemma reach_within h h1 h' c l :
extends h h1 → keeps h h1 h' → within (length h) (length h1) c →
reach h' c l → (length h ≤ l < length h1)%nat.
Proof.
intros E Hk W Hr. induction Hr as [l|l o c l' Ho Hc _ IH]; [exact W|].
apply IH. cbn in W. rewrite Hk in Ho by done.
destruct E as (k & E & F). rewrite E in Ho.
rewrite lookup_app_r in Ho by lia.
apply (list_elem_of_lookup_2 k) in Ho.
rewrite Forall_forall in F. specialize (F _ Ho).
rewrite Forall_forall in F. by apply F.
Qed.

Lemma assoc_represents h decl cs f d :
all2 (entry_represents h) decl cs = true →
assoc f decl = Some d →
∃ c, assoc f cs = Some c ∧ c ∈ cs.*2 ∧ represents h d c = true.
Proof.
revert cs. induction decl as [|[k x] decl IH]; intros [|[k' c] cs] Hall Hf;
  try done.
cbn in Hall, Hf. apply andb_prop in Hall as [Hhd Hall].
apply andb_prop in Hhd as [Hk Hx]. apply bool_decide_eq_true_1 in Hk as <-.
cbn. case_bool_decide.
- injection Hf as <-. exists c. split; [done|]. split; [|done].
  apply list_elem_of_here.
- destruct (IH _ Hall Hf) as (c' & ? & ? & ?). exists c'.
  split; [done|]. split; [|done]. by apply list_elem_of_further.
Qed.

Lemma construct_ok name decl h a h1 :
construct name decl h = (a, h1) →
extends h h1 ∧ within (length h) (length h1) a ∧
∀ h', keeps h h1 h' →
  ∀ f d, assoc f decl = Some d →
    ∃ c, getattr h' a f = Some c ∧ represents h' d c = true.
Proof.
unfold construct. intros Hrun.
destruct (copy_items deepcopy decl h) as [cs ha] eqn:Hcs.
assert (Forall (λ kv : string * value, copy_ok kv.2) decl) as Hall
  by (apply Forall_forall; intros; apply deepcopy_ok).
destruct (copy_items_ok _ Hall _ _ _ Hcs) as (E & W & R).
destruct (new_extends _ _ (OContainer name cs) _ _ E W Hrun)
  as (E' & -> & W' & Hl).
split; [done|]. split; [done|]. intros h' Hk f d Hf.
pose proof (extends_length _ _ E).
assert (length h1 = S (length ha))
  by (injection Hrun as <-; rewrite length_app; cbn; lia).
assert (keeps h ha h') as Hk'.
{ intros l' Hl'. rewrite Hk by lia. injection Hrun as <-.
  apply lookup_app_l. lia. }
destruct (assoc_represents _ _ _ _ _ (R _ Hk') Hf) as (c & Hc & _ & Hr).
exists c. split; [|done]. cbn. by rewrite Hk, Hl by lia.
Qed.

Lemma keeps_refl h h1 : keeps h h1 h1.
Proof. by intros l _. Qed.

Lemma keeps_extends h h1 h2 : extends h1 h2 → keeps h h1 h2.
Proof. intros E l Hl. apply extends_lookup; [done | lia]. Qed.

Lemma reset_ok decl l name fs h :
h !! l = Some (OContainer name fs) →
∃ h', reset decl (Ref l) h = Some h' ∧
  ∀ f d, assoc f decl = Some d →
    ∃ c, getattr h' (Ref l) f = Some c ∧ represents h' d c = true ∧
         ∀ l', reach h' c l' → (length h ≤ l')%nat.
Proof.
intros Hl. cbn. rewrite Hl.
destruct (copy_items deepcopy decl h) as [cs h1] eqn:Hcs.
assert (Forall (λ kv : string * value, copy_ok kv.2) decl) as Hall
  by (apply Forall_forall; intros; apply deepcopy_ok).
destruct (copy_items_ok _ Hall _ _ _ Hcs) as (E & W & R).
eexists. split; [done|]. intros f d Hf.
pose proof (extends_length _ _ E).
pose proof (lookup_lt_Some _ _ _ Hl).
assert (keeps h h1 (<[l:=OContainer name cs]> h1)) as Hk.
{ intros l' Hl'. apply list_lookup_insert_ne. lia. }
destruct (assoc_represents _ _ _ _ _ (R _ Hk) Hf) as (c & Hc & Hin & Hr).
exists c. split; [|split; [done|]].
- rewrite list_lookup_insert_eq by lia. done.
- intros l' Hr'. rewrite Forall_forall in W.
  by destruct (reach_within _ _ _ _ _ E Hk (W _ Hin) Hr').
Qed.

(** C10, fresh defaults per container instance: of two instances of
  one container class constructed one after the other, the second is made
  of objects that did not exist before it, no object can be reached from
  both, and each declared field of it holds a copy of its declared
  default; and after [reset] of any container instance every declared
  field again holds a copy of its declared default, made of objects that did
  not exist before the reset. *)
Theorem C10_fresh_defaults name decl h a h1 b h2 :
construct name decl h = (a, h1) →
construct name decl h1 = (b, h2) →
(∀ l, reach h2 b l → (length h1 ≤ l < length h2)%nat) ∧
(∀ l, reach h2 a l → reach h2 b l → False) ∧
(∀ f d, assoc f decl = Some d →
   (∃ c, getattr h2 a f = Some c ∧ represents h2 d c = true) ∧
   (∃ c, getattr h2 b f = Some c ∧ represents h2 d c = true)) ∧
(∀ h0 l n fs, h0 !! l = Some (OContainer n fs) →
   ∃ h', reset decl (Ref l) h0 = Some h' ∧
     ∀ f d, assoc f decl = Some d →
       ∃ c, getattr h' (Ref l) f = Some c ∧ represents h' d c = true ∧
            ∀ l', reach h' c l' → (length h0 ≤ l')%nat).
Proof.
intros Ha Hb.
destruct (construct_ok _ _ _ _ _ Ha) as (Ea & Wa & Ra).
destruct (construct_ok _ _ _ _ _ Hb) as (Eb & Wb & Rb).
assert (∀ l, reach h2 b l → (length h1 ≤ l < length h2)%nat) as Hfresh.
{ intros l. by apply reach_within; [|apply keeps_refl|]. }
assert (∀ l, reach h2 a l → (length h ≤ l < length h1)%nat) as Hold.
{ intros l. by eapply reach_within; [|apply keeps_extends|]. }
split; [done|]. split.
{ intros l Hla Hlb. apply Hfresh in Hlb. apply Hold in Hla. lia. }
split.
- intros f d Hf. split.
  + by apply Ra; [apply keeps_extends|].
  + by apply Rb; [apply keeps_refl|].
- intros h0 l n fs. apply reset_ok.
Qed.

End CoreProperties.

Lemma C10_fresh_defaults_witness :
  (∀ l, Core.reach Declared.second_event.2 Declared.second_event.1 l →
     (length Declared.first_event.2 ≤ l < length Declared.second_event.2)%nat) ∧
  (∀ l, Core.reach Declared.second_event.2 Declared.first_event.1 l →
     Core.reach Declared.second_event.2 Declared.second_event.1 l → False) ∧
  (∀ f d, Core.assoc f Declared.TargetIODataContainer = Some d →
     (∃ c, Core.getattr Declared.second_event.2 Declared.first_event.1 f = Some c ∧
           Core.represents Declared.second_event.2 d c = true) ∧
     (∃ c, Core.getattr Declared.second_event.2 Declared.second_event.1 f = Some c ∧
           Core.represents Declared.second_event.2 d c = true)) ∧
  (∀ h0 l n fs, h0 !! l = Some (Core.OContainer n fs) →
     ∃ h', Core.reset Declared.TargetIODataContainer (Core.Ref l) h0 = Some h' ∧
       ∀ f d, Core.assoc f Declared.TargetIODataContainer = Some d →
         ∃ c, Core.getattr h' (Core.Ref l) f = Some c ∧
              Core.represents h' d c = true ∧
              ∀ l', Core.reach h' c l' → (length h0 ≤ l')%nat).
Proof.
  apply (C10_fresh_defaults "TargetIODataContainer"
           Declared.TargetIODataContainer [] Declared.first_event.1
           Declared.first_event.2 Declared.second_event.1
           Declared.second_event.2); vm_compute; reflexivity.
Defined.

(** ** Errors, allocation and construction on concrete events *)

Module MoreExamples.
Import Edge.

Lemma X1_missing_origin_key_witness :
  call_calibrate Sample.ApplyEvent Sample.check_r0_exists Sample.store Sample.real_calibrator untagged
    = (Raise KeyError, mk_state Sample.store Sample.real_calibrator untagged).
Proof.
  apply (X1_missing_origin_key Sample.ApplyEvent Sample.check_r0_exists Sample.store
           Sample.real_calibrator untagged); [discriminate | reflexivity].
Defined.

Lemma X2_exception_writes_nothing_witness :
  r1 (event failed_call.2) = r1 event_void ∧
  ∀ l a, edge_store !! l = Some a → heap failed_call.2 !! l = Some a.
Proof.
  apply (X2_exception_writes_nothing Sample.ApplyEvent Sample.check_r0_exists edge_store
           Sample.real_calibrator event_void (ExternalError 1) failed_call.2).
  vm_compute. reflexivity.
Defined.

Lemma X3_failed_call_allocates_buffer_witness :
  _r1_wf (self failed_call.2) = Some (fresh (dom edge_store)) ∧
  heap failed_call.2
    = <[fresh (dom edge_store) := zeros (nd_shape raw_void)]> edge_store ∧
  edge_store !! fresh (dom edge_store) = None.
Proof.
  apply (X3_failed_call_allocates_buffer Sample.ApplyEvent Sample.check_r0_exists
           edge_store Sample.real_calibrator event_void (ExternalError 1)
           failed_call.2 2%nat raw_void); vm_compute; reflexivity.
Defined.

Lemma X4_empty_first_axis_witness :
  ∃ s', call_calibrate Sample.ApplyEvent Sample.check_r0_exists edge_store Sample.real_calibrator
          event_none = (Raise IndexError, s') ∧
        r1 (event s') = r1 event_none.
Proof.
  apply (X4_empty_first_axis Sample.ApplyEvent Sample.check_r0_exists edge_store
           Sample.real_calibrator event_none 1%nat raw_none);
    first [ reflexivity | by eexists ].
Defined.

Lemma X5_identity_result_is_new_witness :
  self identity_call.2 = Sample.fake_calibrator ∧
  (∀ l a, Sample.store !! l = Some a → heap identity_call.2 !! l = Some a) ∧
  (identity_call.1 = Return () →
   Sample.check_r0_exists Sample.event_a (telid Sample.fake_calibrator) = true →
   ∃ l', read_r1_waveform (event identity_call.2) (telid Sample.fake_calibrator)
           = Some l' ∧
         Sample.store !! l' = None ∧ dom (heap identity_call.2) = {[ l' ]} ∪ dom Sample.store).
Proof.
  apply (X5_identity_result_is_new Sample.ApplyEvent Sample.check_r0_exists Sample.store
           Sample.fake_calibrator Sample.event_a identity_call.1 identity_call.2);
    vm_compute; reflexivity.
Defined.

Lemma X6_no_allocation_with_buffer_witness :
  dom (heap Sample.second_call.2) = dom (heap Sample.first_call.2) ∧
  _r1_wf (self Sample.second_call.2) = Some 2%nat ∧
  ∀ l a, l ≠ 2%nat → heap Sample.first_call.2 !! l = Some a →
         heap Sample.second_call.2 !! l = Some a.
Proof.
  apply (X6_no_allocation_with_buffer Sample.ApplyEvent Sample.check_r0_exists
           (heap Sample.first_call.2) (self Sample.first_call.2) Sample.event_b Sample.second_call.1
           Sample.second_call.2 2%nat); vm_compute; reflexivity.
Defined.

Lemma X8_dataset_loaded_once_witness :
  tc (run_ops Sample.ApplyEvent Sample.check_r0_exists
        [op_configure Sample.no_paths; op_calibrate Sample.event_a]
        (Sample.store, Sample.real_calibrator)).2 = Sample.tc ∧
  calibrator (run_ops Sample.ApplyEvent Sample.check_r0_exists
                [op_configure Sample.no_paths; op_calibrate Sample.event_a]
                (Sample.store, Sample.real_calibrator)).2
    = (if truthy (pedestal_path Sample.ped_only) then
         match tc_Calibrator Sample.tc
                 (default ""%string (pedestal_path Sample.ped_only))
                 (tf_path Sample.ped_only) [pe_path Sample.ped_only; ff_path Sample.ped_only] with
         | inr ds => Some ds
         | inl _ => None
         end
       else None).
Proof.
  apply (X8_dataset_loaded_once Sample.ApplyEvent Sample.check_r0_exists Sample.tc
           Sample.ped_only Sample.real_calibrator
           [op_configure Sample.no_paths; op_calibrate Sample.event_a] Sample.store).
  reflexivity.
Defined.

Lemma X9_identity_keeps_instance_witness :
  _r1_wf (run_ops Sample.ApplyEvent Sample.check_r0_exists
            [op_calibrate Sample.event_a; op_configure Sample.ped_only]
            (Sample.store, Sample.fake_calibrator)).2 = None ∧
  calibrator (run_ops Sample.ApplyEvent Sample.check_r0_exists
                [op_calibrate Sample.event_a; op_configure Sample.ped_only]
                (Sample.store, Sample.fake_calibrator)).2 = None.
Proof.
  apply (X9_identity_keeps_instance Sample.ApplyEvent Sample.check_r0_exists Sample.tc
           Sample.no_paths Sample.fake_calibrator
           [op_calibrate Sample.event_a; op_configure Sample.ped_only] Sample.store);
    reflexivity.
Defined.

Lemma X10_uint16_cast_is_exact_witness :
  Exact.integer_of <$> nd_data (astype_float32 Sample.raw_a)
    = Exact.integer_of <$> nd_data Sample.raw_a ∧
  nd_shape (astype_float32 Sample.raw_a) = nd_shape Sample.raw_a ∧
  nd_dtype (astype_float32 Sample.raw_a) = float32.
Proof. apply (X10_uint16_cast_is_exact Sample.raw_a). reflexivity. Defined.

Lemma X11_calibrated_waveform_is_float32_witness :
  ∃ l A, read_r1_waveform (event Sample.second_call.2) 0 = Some l ∧
         heap Sample.second_call.2 !! l = Some A ∧ nd_dtype A = float32.
Proof.
  apply (X11_calibrated_waveform_is_float32 Sample.ApplyEvent Sample.check_r0_exists
           Sample.tc Sample.ped_only Sample.real_calibrator (self Sample.first_call.2)
           [op_calibrate Sample.event_a] Sample.store (heap Sample.first_call.2) Sample.event_b
           Sample.second_call.2); vm_compute; reflexivity.
Defined.

Lemma X12_channel_0_holds_result_witness :
  ∃ b buf ds l W fv out cell,
    read_r1_waveform (event Sample.first_call.2) 0 = Some b ∧
    heap Sample.first_call.2 !! b = Some buf ∧
    read_r0_waveform Sample.event_a 0 = Some l ∧ Sample.store !! l = Some W ∧
    calibrator Sample.real_calibrator = Some ds ∧
    match _r1_wf Sample.real_calibrator with
    | Some b0 => b0 = b ∧ Sample.store !! b = Some out
    | None => Sample.store !! b = None ∧ out = zeros (nd_shape W)
    end ∧
    arg_value (match _r1_wf Sample.real_calibrator with
               | Some _ => Sample.store
               | None => <[b := out]> Sample.store
               end) (read_fci Sample.event_a 0) = Some fv ∧
    Sample.ApplyEvent ds (item0 W) fv (item0 out) = inr cell ∧
    nd_shape buf = nd_shape out ∧
    length (nd_data buf) = size_of (nd_shape buf) ∧
    (is_view0 out = true →
     (chan_size buf ≤ length (nd_data buf))%nat ∧
     ∀ i, (i < chan_size buf)%nat → nd_data buf !! i = Some (F32 (cell i))) ∧
    (is_view0 out = false → buf = out).
Proof.
  apply (X12_channel_0_holds_result Sample.ApplyEvent Sample.check_r0_exists Sample.tc
           Sample.ped_only Sample.real_calibrator Sample.real_calibrator [] Sample.store Sample.store Sample.event_a
           Sample.first_call.2); vm_compute; reflexivity.
Defined.

(** On a raw waveform with one axis the call returns, and the calibrated
    waveform is the buffer as it was allocated: nothing [ApplyEvent]
    computed has reached it. *)
Lemma one_axis_buffer_stays_zero :
  is_view0 raw_flat = false ∧
  flat_call.1 = Return () ∧
  Sample.r1_array flat_call.2 0 = Some (zeros [3]%nat).
Proof. vm_compute. repeat split; reflexivity. Qed.

Lemma X13_identity_equals_raw_witness :
  ∃ l' A,
    read_r0_waveform (event identity_call.2) 0 = Some 0%nat ∧
    heap identity_call.2 !! 0%nat = Some Sample.raw_a ∧
    read_r1_waveform (event identity_call.2) 0 = Some l' ∧
    heap identity_call.2 !! l' = Some A ∧
    nd_shape A = nd_shape Sample.raw_a ∧
    Exact.integer_of <$> nd_data A
      = Exact.integer_of <$> nd_data Sample.raw_a.
Proof.
  apply (X13_identity_equals_raw Sample.ApplyEvent Sample.check_r0_exists
           Sample.tc Sample.no_paths Sample.fake_calibrator Sample.store
           Sample.event_a identity_call.2 0%nat Sample.raw_a);
    vm_compute; reflexivity.
Defined.

End MoreExamples.
